(** * Automation HAT analog inputs: a model of [src/io/analog-input.ts]

    The ADS1015 driver ([AnalogInputService]) and its four channel objects
    ([AnalogInput]) are embedded as state-passing functions over a [World]
    that holds the fields of the service object and the chronological trace
    of every call made to a collaborator (the [i2c-bus] module, the bus
    handle, the light service and the console).  The collaborators are
    arbitrary: each one answers a call from the history of calls so far, and
    may throw. *)

From Stdlib Require Import ZArith Lia List String Bool.
From Stdlib Require Import Floats Uint63 DecimalString.
Import ListNotations.

Local Open Scope string_scope.
Local Open Scope list_scope.
Local Open Scope Z_scope.
Local Set Warnings "-inexact-float".

(** ** JavaScript numbers, bit operators and byte buffers *)

Module JS.

(** [ToInt32]: the wrap-around every bitwise operator applies first. *)
Definition to_int32 (z : Z) : Z := (z + 2 ^ 31) mod 2 ^ 32 - 2 ^ 31.

(** [a | b], [a & b], [a << n], [a >> n] on 32-bit signed integers. *)
Definition bor (a b : Z) : Z := Z.lor (to_int32 a) (to_int32 b).
Definition band (a b : Z) : Z := Z.land (to_int32 a) (to_int32 b).
Definition shl (a n : Z) : Z := to_int32 (Z.shiftl (to_int32 a) (n mod 32)).
Definition shr (a n : Z) : Z := Z.shiftr (to_int32 a) (n mod 32).

(** A [Buffer] is a fixed-length array of bytes; a store keeps the value
    modulo 256 and a store outside the array is dropped. *)
Definition Buffer := list Z.

Definition to_uint8 (z : Z) : Z := z mod 256.

Definition alloc (n : nat) : Buffer := repeat 0 n.

Definition from (xs : list Z) : Buffer := map to_uint8 xs.

Fixpoint set (buf : Buffer) (i : nat) (v : Z) : Buffer :=
  match buf, i with
  | [], _ => []
  | _ :: rest, O => to_uint8 v :: rest
  | b :: rest, S j => b :: set rest j v
  end.

(** [fill_from buf i vs] stores [vs] at indices [i], [i+1], ... *)
Fixpoint fill_from (buf : Buffer) (i : nat) (vs : list Z) : Buffer :=
  match vs with
  | [] => buf
  | v :: rest => fill_from (set buf i v) (S i) rest
  end.

(** [buf[i]] for an index inside the array ([undefined] is not modelled:
    the driver only indexes a two-byte buffer at 0 and 1). *)
Definition get (buf : Buffer) (i : nat) : Z := nth i buf 0.

(** [String(n)] for an integer-valued number below 1e21 in magnitude. *)
Definition toString (n : Z) : string := NilZero.string_of_int (Z.to_int n).

(** [Number.isSafeInteger]. *)
Definition isSafeInteger (n : Z) : Prop := Z.abs n <= 9007199254740991.

(** An integer as an IEEE 754 binary64 number. *)
Definition to_float (n : Z) : float :=
  if n <? 0 then PrimFloat.opp (PrimFloat.of_uint63 (Uint63.of_Z (- n)))
  else PrimFloat.of_uint63 (Uint63.of_Z n).

End JS.

(** ** ADS1015 register map *)

Definition ADS1015_REG_CONVERSION : Z := 0x00.
Definition ADS1015_REG_CONFIG : Z := 0x01.

Definition ADS1015_CONFIG_OS_SINGLE : Z := 0x8000.
Definition ADS1015_CONFIG_MUX_SINGLE_0 : Z := 0x4000.
Definition ADS1015_CONFIG_MUX_SINGLE_1 : Z := 0x5000.
Definition ADS1015_CONFIG_MUX_SINGLE_2 : Z := 0x6000.
Definition ADS1015_CONFIG_MUX_SINGLE_3 : Z := 0x7000.
Definition ADS1015_CONFIG_GAIN_ONE : Z := 0x0200.
Definition ADS1015_CONFIG_MODE_SINGLE : Z := 0x0100.
Definition ADS1015_CONFIG_DR_1600SPS : Z := 0x0080.
Definition ADS1015_CONFIG_CMODE_TRAD : Z := 0x0000.
Definition ADS1015_CONFIG_CPOL_ACTVLOW : Z := 0x0000.
Definition ADS1015_CONFIG_CLAT_NONLAT : Z := 0x0000.
Definition ADS1015_CONFIG_CQUE_NONE : Z := 0x0003.

(** ** Errors, collaborators and the trace of their calls *)

(** A thrown value: an [Error] object, identified by its message. *)
Inductive exn : Type := Error (message : string).

Inductive result (A : Type) : Type :=
| Ok (a : A)
| Throw (e : exn).
Arguments Ok {A} a.
Arguments Throw {A} e.

(** The bus object returned by [i2c.openSync]. *)
Definition handle := nat.

(** The three indicator lights the service drives. *)
Inductive light : Type := analogInput1 | analogInput2 | analogInput3.

(** One call to a collaborator, with its arguments.  [BusyWait d] stands
    for the loop on [Date.now()] that lets [d] milliseconds pass between
    the write and the read of a conversion: it makes no call to the bus or
    the lights and touches no field, and the clock is taken to advance. *)
Inductive event : Type :=
| OpenSync (busNumber : Z)
| CloseSync (bus : handle)
| WriteI2cBlockSync (bus : handle) (addr cmd length : Z) (bytes : JS.Buffer)
| BusyWait (delay : Z)
| ReadI2cBlockSync (bus : handle) (addr cmd length : Z)
| LightOn (l : light)
| LightOff (l : light)
| LightUpdate
| ConsoleError (label : string) (error : exn).

(** The collaborators.  Each answers from the calls made so far; a read
    answers with the values the transport stores into the buffer it is
    handed, starting at index 0. *)
Record Collaborators : Type := {
  i2c_openSync : list event -> Z -> result handle;
  bus_closeSync : list event -> handle -> result unit;
  bus_writeI2cBlockSync :
    list event -> handle -> Z -> Z -> Z -> JS.Buffer -> result Z;
  bus_readI2cBlockSync :
    list event -> handle -> Z -> Z -> Z -> result (list Z);
  light_on : list event -> light -> result unit;
  light_off : list event -> light -> result unit;
  light_update : list event -> result unit
}.

(** ** The objects *)

(** [AnalogInput]: the channel number and the cached sample. *)
Record AnalogInput : Type := {
  channel : Z;
  currentValue : Z
}.

(** [AnalogInputService]: the four channel objects and the private fields. *)
Record AnalogInputService : Type := {
  input1 : AnalogInput;
  input2 : AnalogInput;
  input3 : AnalogInput;
  input4 : AnalogInput;
  i2cBus : option handle;
  enabled : bool
}.

Definition address : Z := 0x48.

(** [new AnalogInput(channel, service)]. *)
Definition new_AnalogInput (ch : Z) : AnalogInput :=
  {| channel := ch; currentValue := 0 |}.

(** [new AnalogInputService(lightService)]. *)
Definition new_AnalogInputService : AnalogInputService :=
  {| input1 := new_AnalogInput 0;
     input2 := new_AnalogInput 1;
     input3 := new_AnalogInput 2;
     input4 := new_AnalogInput 3;
     i2cBus := None;
     enabled := false |}.

(** The names of the four channel properties of the service. *)
Inductive slot : Type := Input1 | Input2 | Input3 | Input4.

Definition input (s : slot) (this : AnalogInputService) : AnalogInput :=
  match s with
  | Input1 => input1 this
  | Input2 => input2 this
  | Input3 => input3 this
  | Input4 => input4 this
  end.

Definition with_i2cBus (b : option handle) (this : AnalogInputService) :=
  {| input1 := input1 this; input2 := input2 this; input3 := input3 this;
     input4 := input4 this; i2cBus := b; enabled := enabled this |}.

Definition with_enabled (e : bool) (this : AnalogInputService) :=
  {| input1 := input1 this; input2 := input2 this; input3 := input3 this;
     input4 := input4 this; i2cBus := i2cBus this; enabled := e |}.

Definition with_currentValue (v : Z) (a : AnalogInput) : AnalogInput :=
  {| channel := channel a; currentValue := v |}.

Definition with_input (s : slot) (a : AnalogInput) (this : AnalogInputService) :=
  match s with
  | Input1 =>
      {| input1 := a; input2 := input2 this; input3 := input3 this;
         input4 := input4 this; i2cBus := i2cBus this; enabled := enabled this |}
  | Input2 =>
      {| input1 := input1 this; input2 := a; input3 := input3 this;
         input4 := input4 this; i2cBus := i2cBus this; enabled := enabled this |}
  | Input3 =>
      {| input1 := input1 this; input2 := input2 this; input3 := a;
         input4 := input4 this; i2cBus := i2cBus this; enabled := enabled this |}
  | Input4 =>
      {| input1 := input1 this; input2 := input2 this; input3 := input3 this;
         input4 := a; i2cBus := i2cBus this; enabled := enabled this |}
  end.

(** The service object together with everything it has done to the outside. *)
Record World : Type := {
  service : AnalogInputService;
  trace : list event
}.

Definition new_World : World :=
  {| service := new_AnalogInputService; trace := [] |}.

(** ** A state and exception monad for method bodies *)

Definition M (A : Type) : Type := World -> result A * World.

Definition ret {A} (a : A) : M A := fun w => (Ok a, w).

Definition throw {A} (e : exn) : M A := fun w => (Throw e, w).

Definition bind {A B} (m : M A) (k : A -> M B) : M B :=
  fun w =>
    match m w with
    | (Ok a, w') => k a w'
    | (Throw e, w') => (Throw e, w')
    end.

(** [try { body } catch (error) { handler }]. *)
Definition try_catch {A} (body : M A) (handler : exn -> M A) : M A :=
  fun w =>
    match body w with
    | (Ok a, w') => (Ok a, w')
    | (Throw e, w') => handler e w'
    end.

Declare Scope js_scope.
Delimit Scope js_scope with js.
Notation "x <- m ;; k" := (bind m (fun x => k))
  (at level 61, m at next level, right associativity) : js_scope.
Notation "m ;; k" := (bind m (fun _ => k))
  (at level 61, right associativity) : js_scope.
Local Open Scope js_scope.

Definition this : M AnalogInputService := fun w => (Ok (service w), w).

Definition update (f : AnalogInputService -> AnalogInputService) : M unit :=
  fun w => (Ok tt, {| service := f (service w); trace := trace w |}).

(** A call to a collaborator: it is recorded, then answered from the
    history before it. *)
Definition call {A} (ev : event) (answer : list event -> result A) : M A :=
  fun w =>
    (answer (trace w), {| service := service w; trace := trace w ++ [ev] |}).

(** An effect on the outside that cannot fail. *)
Definition emit (ev : event) : M unit :=
  fun w => (Ok tt, {| service := service w; trace := trace w ++ [ev] |}).

Definition not_enabled_message : string :=
  "AnalogInputService is not enabled. Call enable() first.".

(** ** The methods *)

Section Methods.

Variable env : Collaborators.

(** [AnalogInputService.enable]. *)
Definition enable : M unit :=
  s <- this ;;
  if enabled s then ret tt
  else
    try_catch
      (bus <- call (OpenSync 1) (fun h => i2c_openSync env h 1) ;;
       update (with_i2cBus (Some bus)) ;;
       update (with_enabled true) ;;
       call (LightOn analogInput1) (fun h => light_on env h analogInput1) ;;
       call (LightOn analogInput2) (fun h => light_on env h analogInput2) ;;
       call (LightOn analogInput3) (fun h => light_on env h analogInput3) ;;
       call LightUpdate (light_update env))
      (fun error =>
         emit (ConsoleError "Failed to enable AnalogInputService:" error) ;;
         throw error).

(** [AnalogInputService.disable]. *)
Definition disable : M unit :=
  s <- this ;;
  if negb (enabled s) then ret tt
  else
    try_catch
      (match i2cBus s with
       | Some bus =>
           call (CloseSync bus) (fun h => bus_closeSync env h bus) ;;
           update (with_i2cBus None)
       | None => ret tt
       end ;;
       update (with_enabled false) ;;
       call (LightOff analogInput1) (fun h => light_off env h analogInput1) ;;
       call (LightOff analogInput2) (fun h => light_off env h analogInput2) ;;
       call (LightOff analogInput3) (fun h => light_off env h analogInput3) ;;
       call LightUpdate (light_update env))
      (fun error =>
         emit (ConsoleError "Failed to disable AnalogInputService:" error)).

(** The configuration word before the multiplexer bits are set. *)
Definition base_config : Z :=
  JS.bor (JS.bor (JS.bor (JS.bor (JS.bor (JS.bor (JS.bor
    ADS1015_CONFIG_CQUE_NONE
    ADS1015_CONFIG_CLAT_NONLAT)
    ADS1015_CONFIG_CPOL_ACTVLOW)
    ADS1015_CONFIG_CMODE_TRAD)
    ADS1015_CONFIG_DR_1600SPS)
    ADS1015_CONFIG_MODE_SINGLE)
    ADS1015_CONFIG_GAIN_ONE)
    ADS1015_CONFIG_OS_SINGLE.

(** The [switch (channel)] of [readChannel]: the configuration word with
    the multiplexer bits, or nothing in the [default] case. *)
Definition select_mux (config ch : Z) : option Z :=
  if ch =? 0 then Some (JS.bor config ADS1015_CONFIG_MUX_SINGLE_0)
  else if ch =? 1 then Some (JS.bor config ADS1015_CONFIG_MUX_SINGLE_1)
  else if ch =? 2 then Some (JS.bor config ADS1015_CONFIG_MUX_SINGLE_2)
  else if ch =? 3 then Some (JS.bor config ADS1015_CONFIG_MUX_SINGLE_3)
  else None.

(** [configBytes]: the word as handed to the transport. *)
Definition configBytes (config : Z) : JS.Buffer :=
  JS.from [JS.band (JS.shr config 8) 0xff; JS.band config 0xff].

(** The last two lines of [readChannel]. *)
Definition decode (buffer : JS.Buffer) : Z :=
  let value := JS.bor (JS.shl (JS.get buffer 0) 8) (JS.get buffer 1) in
  JS.shr value 4.

(** [AnalogInputService.readChannel]. *)
Definition readChannel (ch : Z) : M Z :=
  s <- this ;;
  match enabled s, i2cBus s with
  | true, Some bus =>
      match select_mux base_config ch with
      | None =>
          throw (Error ("Invalid channel: " ++ JS.toString ch
                        ++ ". Must be 0-3.")%string)
      | Some config =>
          let bytes := configBytes config in
          call (WriteI2cBlockSync bus address ADS1015_REG_CONFIG 2 bytes)
               (fun h => bus_writeI2cBlockSync env h bus address
                           ADS1015_REG_CONFIG 2 bytes) ;;
          emit (BusyWait 2) ;;
          let buffer := JS.alloc 2 in
          stored <- call (ReadI2cBlockSync bus address ADS1015_REG_CONVERSION 2)
                      (fun h => bus_readI2cBlockSync env h bus address
                                  ADS1015_REG_CONVERSION 2) ;;
          ret (decode (JS.fill_from buffer 0 stored))
      end
  | _, _ => throw (Error not_enabled_message)
  end.

(** [AnalogInput.read], for the channel object held in slot [i]. *)
Definition AnalogInput_read (i : slot) : M Z :=
  s <- this ;;
  v <- readChannel (channel (input i s)) ;;
  update (fun s' => with_input i (with_currentValue v (input i s')) s') ;;
  s'' <- this ;;
  ret (currentValue (input i s'')).

(** [AnalogInputService.read]. *)
Definition read : M unit :=
  s <- this ;;
  if negb (enabled s) then throw (Error not_enabled_message)
  else
    AnalogInput_read Input1 ;;
    AnalogInput_read Input2 ;;
    AnalogInput_read Input3 ;;
    AnalogInput_read Input4 ;;
    ret tt.

End Methods.

(** [AnalogInput.raw], [AnalogInput.voltage] and [AnalogInput.percent]. *)
Definition raw (a : AnalogInput) : Z := currentValue a.

Definition voltage (a : AnalogInput) : float :=
  let adcVoltage :=
    PrimFloat.mul (PrimFloat.div (JS.to_float (currentValue a)) 2047.0%float)
                  4.096%float in
  PrimFloat.mul adcVoltage 13%float.

Definition percent (a : AnalogInput) : float :=
  PrimFloat.mul (PrimFloat.div (JS.to_float (currentValue a)) 2047.0%float)
                100%float.

(** * Vocabulary of the statements *)

Definition is_byte (b : Z) : Prop := 0 <= b < 256.

(** The configuration word in the words of the register map: the fixed
    flags OR-ed together, then the multiplexer selector of channel [N]. *)
Definition spec_flags : Z :=
  Z.lor 0x0003 (Z.lor 0x0000 (Z.lor 0x0000 (Z.lor 0x0000
    (Z.lor 0x0080 (Z.lor 0x0100 (Z.lor 0x0200 0x8000)))))).

Definition spec_mux (N : Z) : Z := 0x4000 + N * 0x1000.

Definition spec_config_word (N : Z) : Z := Z.lor spec_flags (spec_mux N).

(** A 16-bit word, high byte first. *)
Definition big_endian (word : Z) : list Z := [word / 256; word mod 256].

(** The two bus transactions of a conversion on channel [N], and the whole
    conversion as it appears in the trace. *)
Definition write_config (bus : handle) (N : Z) : event :=
  WriteI2cBlockSync bus 0x48 0x01 2 (big_endian (spec_config_word N)).

Definition read_conversion (bus : handle) : event :=
  ReadI2cBlockSync bus 0x48 0x00 2.

Definition conversion (bus : handle) (N : Z) : list event :=
  [write_config bus N; BusyWait 2; read_conversion bus].

(** How the transport answers them when the conversion starts after the
    calls of [h]. *)
Definition write_answer (env : Collaborators) (h : list event)
    (bus : handle) (N : Z) : result Z :=
  bus_writeI2cBlockSync env h bus 0x48 0x01 2 (big_endian (spec_config_word N)).

Definition read_answer (env : Collaborators) (h : list event)
    (bus : handle) (N : Z) : result (list Z) :=
  bus_readI2cBlockSync env (h ++ [write_config bus N; BusyWait 2]) bus 0x48 0x00 2.

Definition extend (w : World) (evs : list event) : World :=
  {| service := service w; trace := trace w ++ evs |}.

Definition slot_eq_dec (i j : slot) : {i = j} + {i <> j}.
Proof. decide equality. Defined.

(** The channel number each slot is constructed with. *)
Definition slot_channel (i : slot) : Z :=
  match i with Input1 => 0 | Input2 => 1 | Input3 => 2 | Input4 => 3 end.

(** What the constructor establishes and every method keeps: the channel
    numbers, and a bus handle exactly when the service is enabled. *)
Definition well_formed (s : AnalogInputService) : Prop :=
  (forall i, channel (input i s) = slot_channel i) /\
  (enabled s = true -> exists bus, i2cBus s = Some bus) /\
  (enabled s = false -> i2cBus s = None).

(** The error a collaborator raises when [ev] is called after [h], if any. *)
Definition to_raised {A} (r : result A) : option exn :=
  match r with Ok _ => None | Throw e => Some e end.

Definition raised (env : Collaborators) (h : list event) (ev : event)
  : option exn :=
  match ev with
  | OpenSync n => to_raised (i2c_openSync env h n)
  | CloseSync bus => to_raised (bus_closeSync env h bus)
  | WriteI2cBlockSync bus a c l bytes =>
      to_raised (bus_writeI2cBlockSync env h bus a c l bytes)
  | ReadI2cBlockSync bus a c l =>
      to_raised (bus_readI2cBlockSync env h bus a c l)
  | LightOn l => to_raised (light_on env h l)
  | LightOff l => to_raised (light_off env h l)
  | LightUpdate => to_raised (light_update env h)
  | BusyWait _ | ConsoleError _ _ => None
  end.

(** [caught_and_logged label env h evs]: in the calls [evs] made after [h],
    a call that raises is followed by the log of that very error under
    [label], and by nothing else. *)
Fixpoint caught_and_logged (label : string) (env : Collaborators)
    (h evs : list event) : Prop :=
  match evs with
  | [] => True
  | ev :: rest =>
      match raised env h ev with
      | Some e => rest = [ConsoleError label e]
      | None => caught_and_logged label env (h ++ [ev]) rest
      end
  end.

(** [no_failure env h evs]: none of the calls [evs] made after [h] raises. *)
Fixpoint no_failure (env : Collaborators) (h evs : list event) : Prop :=
  match evs with
  | [] => True
  | ev :: rest => raised env h ev = None /\ no_failure env (h ++ [ev]) rest
  end.

Definition is_open (ev : event) : bool :=
  match ev with OpenSync _ => true | _ => false end.

Definition is_close (ev : event) : bool :=
  match ev with CloseSync _ => true | _ => false end.

Definition is_bus_transfer (ev : event) : bool :=
  match ev with
  | WriteI2cBlockSync _ _ _ _ _ | ReadI2cBlockSync _ _ _ _ => true
  | _ => false
  end.

Definition count (p : event -> bool) (evs : list event) : nat :=
  List.length (filter p evs).

(** The calls enable() makes to the light service. *)
Definition is_light_activation (ev : event) : Prop :=
  ev = LightOn analogInput1 \/ ev = LightOn analogInput2 \/
  ev = LightOn analogInput3 \/ ev = LightUpdate.

(** Every cached sample is a 12-bit value. *)
Definition samples_in_range (s : AnalogInputService) : Prop :=
  forall i, 0 <= currentValue (input i s) <= 4095.

(** A caller that invokes a method and carries on whatever it throws. *)
Inductive method : Type :=
| CallEnable
| CallDisable
| CallRead
| CallReadChannel (N : Z)
| CallInputRead (i : slot).

Definition invoke (env : Collaborators) (m : method) (w : World) : World :=
  match m with
  | CallEnable => snd (enable env w)
  | CallDisable => snd (disable env w)
  | CallRead => snd (read env w)
  | CallReadChannel N => snd (readChannel env N w)
  | CallInputRead i => snd (AnalogInput_read env i w)
  end.

Definition run (env : Collaborators) (ms : list method) (w : World) : World :=
  fold_left (fun w' m => invoke env m w') ms w.

(** The channel objects read one after the other, stopping at the first
    read that throws: the body of [read] for any list of slots. *)
Fixpoint read_each (env : Collaborators) (slots : list slot) : M unit :=
  match slots with
  | [] => ret tt
  | i :: rest => AnalogInput_read env i ;; read_each env rest
  end.

(** Whether a call returned normally. *)
Definition succeeds {A} (r : result A) : bool :=
  match r with Ok _ => true | Throw _ => false end.

(** The getters in the words of the specification. *)
Definition spec_voltage (r : Z) : float :=
  PrimFloat.mul (PrimFloat.mul (PrimFloat.div (JS.to_float r) 2047.0%float)
                               4.096%float)
                13.0%float.

Definition spec_percent (r : Z) : float :=
  PrimFloat.mul (PrimFloat.div (JS.to_float r) 2047.0%float) 100.0%float.

(** Whether [bus] is the handle currently held. *)
Definition holds (cur : option handle) (bus : handle) : bool :=
  match cur with Some b => Nat.eqb b bus | None => false end.

(** Replaying a trace against the handle it starts with.  [track env h cur
    evs] follows the calls [evs] made after [h]: an open is allowed only
    when no handle is held, and holds the handle it returns; a close, a
    write and a read are allowed only through the handle held; a close that
    returns releases it, a close that throws keeps it.  The result is the
    handle held at the end, or [None] when a call was not allowed. *)
Fixpoint track (env : Collaborators) (h : list event) (cur : option handle)
    (evs : list event) : option (option handle) :=
  match evs with
  | [] => Some cur
  | ev :: rest =>
      match ev with
      | OpenSync n =>
          match cur with
          | Some _ => None
          | None =>
              track env (h ++ [ev])
                (match i2c_openSync env h n with
                 | Ok b => Some b
                 | Throw _ => None
                 end) rest
          end
      | CloseSync bus =>
          if holds cur bus
          then track env (h ++ [ev])
                 (match bus_closeSync env h bus with
                  | Ok _ => None
                  | Throw _ => cur
                  end) rest
          else None
      | WriteI2cBlockSync bus _ _ _ _ | ReadI2cBlockSync bus _ _ _ =>
          if holds cur bus then track env (h ++ [ev]) cur rest else None
      | _ => track env (h ++ [ev]) cur rest
      end
  end.

(** [follows env w w']: the trace of [w'] extends the trace of [w] by
    calls that respect the handle [w] holds, and end with the handle [w']
    holds. *)
Definition follows (env : Collaborators) (w w' : World) : Prop :=
  exists new : list event,
    trace w' = trace w ++ new /\
    track env (trace w) (i2cBus (service w)) new = Some (i2cBus (service w')).

(** A channel object caching the sample [r]. *)
Definition sample (r : Z) : AnalogInput := {| channel := 0; currentValue := r |}.

(** What a call may look like on the wire: bus number 1, device 0x48, the
    configuration register 0x01 written with the two bytes of a valid
    channel, the conversion register 0x00 read into two bytes, a wait of
    2 ms.  The other calls are not constrained. *)
Definition wire_ok (ev : event) : Prop :=
  match ev with
  | OpenSync n => n = 1
  | WriteI2cBlockSync _ a c l bytes =>
      a = 0x48 /\ c = 0x01 /\ l = 2 /\
      exists N, 0 <= N <= 3 /\ bytes = [0xC3 + 16 * N; 0x83]
  | ReadI2cBlockSync _ a c l => a = 0x48 /\ c = 0x00 /\ l = 2
  | BusyWait d => d = 2
  | _ => True
  end.

(** Every element of a list of floats is below the ones after it. *)
Fixpoint strictly_increasing (l : list float) : bool :=
  match l with
  | [] => true
  | x :: rest => forallb (fun y => PrimFloat.ltb x y) rest
                 && strictly_increasing rest
  end.

(** A method call that is enable() or disable(). *)
Definition is_lifecycle_call (m : method) : Prop :=
  m = CallEnable \/ m = CallDisable.

(** [same_wiring s s']: [s'] has the lifecycle fields and the channel
    numbers of [s]; only cached samples may differ. *)
Definition same_wiring (s s' : AnalogInputService) : Prop :=
  enabled s' = enabled s /\
  i2cBus s' = i2cBus s /\
  forall j, channel (input j s') = channel (input j s).

(** ** Concrete collaborators and worlds *)

(** A transport that always answers a read with the same two bytes, and
    never fails. *)
Definition healthy (b0 b1 : Z) : Collaborators :=
  {| i2c_openSync := fun _ _ => Ok 7%nat;
     bus_closeSync := fun _ _ => Ok tt;
     bus_writeI2cBlockSync := fun _ _ _ _ n _ => Ok n;
     bus_readI2cBlockSync := fun _ _ _ _ _ => Ok [b0; b1];
     light_on := fun _ _ => Ok tt;
     light_off := fun _ _ => Ok tt;
     light_update := fun _ => Ok tt |}.

(** The bus cannot be opened. *)
Definition open_fails : Collaborators :=
  {| i2c_openSync := fun _ _ => Throw (Error "ENOENT");
     bus_closeSync := fun _ _ => Ok tt;
     bus_writeI2cBlockSync := fun _ _ _ _ n _ => Ok n;
     bus_readI2cBlockSync := fun _ _ _ _ _ => Ok [0; 0];
     light_on := fun _ _ => Ok tt;
     light_off := fun _ _ => Ok tt;
     light_update := fun _ => Ok tt |}.

(** The bus cannot be closed. *)
Definition close_fails : Collaborators :=
  {| i2c_openSync := fun _ _ => Ok 7%nat;
     bus_closeSync := fun _ _ => Throw (Error "EIO");
     bus_writeI2cBlockSync := fun _ _ _ _ n _ => Ok n;
     bus_readI2cBlockSync := fun _ _ _ _ _ => Ok [0; 0];
     light_on := fun _ _ => Ok tt;
     light_off := fun _ _ => Ok tt;
     light_update := fun _ => Ok tt |}.

(** The second light cannot be switched, in either direction. *)
Definition light_fails : Collaborators :=
  {| i2c_openSync := fun _ _ => Ok 7%nat;
     bus_closeSync := fun _ _ => Ok tt;
     bus_writeI2cBlockSync := fun _ _ _ _ n _ => Ok n;
     bus_readI2cBlockSync := fun _ _ _ _ _ => Ok [0x40; 0x00];
     light_on := fun _ l =>
       match l with analogInput2 => Throw (Error "rpio") | _ => Ok tt end;
     light_off := fun _ l =>
       match l with analogInput2 => Throw (Error "rpio") | _ => Ok tt end;
     light_update := fun _ => Ok tt |}.

(** The third conversion read of the bus fails; the earlier ones answer
    0x4000. *)
Definition third_read_fails : Collaborators :=
  {| i2c_openSync := fun _ _ => Ok 7%nat;
     bus_closeSync := fun _ _ => Ok tt;
     bus_writeI2cBlockSync := fun _ _ _ _ n _ => Ok n;
     bus_readI2cBlockSync := fun h _ _ _ _ =>
       if (5 <=? count is_bus_transfer h)%nat
       then Throw (Error "EREMOTEIO") else Ok [0x40; 0x00];
     light_on := fun _ _ => Ok tt;
     light_off := fun _ _ => Ok tt;
     light_update := fun _ => Ok tt |}.

(** Every write to the bus fails. *)
Definition write_fails : Collaborators :=
  {| i2c_openSync := fun _ _ => Ok 7%nat;
     bus_closeSync := fun _ _ => Ok tt;
     bus_writeI2cBlockSync := fun _ _ _ _ _ _ => Throw (Error "ENXIO");
     bus_readI2cBlockSync := fun _ _ _ _ _ => Ok [0; 0];
     light_on := fun _ _ => Ok tt;
     light_off := fun _ _ => Ok tt;
     light_update := fun _ => Ok tt |}.

(** Every read of the bus fails. *)
Definition read_fails : Collaborators :=
  {| i2c_openSync := fun _ _ => Ok 7%nat;
     bus_closeSync := fun _ _ => Ok tt;
     bus_writeI2cBlockSync := fun _ _ _ _ n _ => Ok n;
     bus_readI2cBlockSync := fun _ _ _ _ _ => Throw (Error "EREMOTEIO");
     light_on := fun _ _ => Ok tt;
     light_off := fun _ _ => Ok tt;
     light_update := fun _ => Ok tt |}.

(** A transport that stores a single byte, and one that stores three
    values, the first of them out of byte range. *)
Definition short_read : Collaborators :=
  {| i2c_openSync := fun _ _ => Ok 7%nat;
     bus_closeSync := fun _ _ => Ok tt;
     bus_writeI2cBlockSync := fun _ _ _ _ n _ => Ok n;
     bus_readI2cBlockSync := fun _ _ _ _ _ => Ok [0x12];
     light_on := fun _ _ => Ok tt;
     light_off := fun _ _ => Ok tt;
     light_update := fun _ => Ok tt |}.

Definition long_read : Collaborators :=
  {| i2c_openSync := fun _ _ => Ok 7%nat;
     bus_closeSync := fun _ _ => Ok tt;
     bus_writeI2cBlockSync := fun _ _ _ _ n _ => Ok n;
     bus_readI2cBlockSync := fun _ _ _ _ _ => Ok [0x17F; 0xF0; 0xAA];
     light_on := fun _ _ => Ok tt;
     light_off := fun _ _ => Ok tt;
     light_update := fun _ => Ok tt |}.

(** A service that has been enabled and has read its four channels on a
    transport answering 0x4000, so that every cached sample is 1024. *)
Definition sampled_World : World :=
  {| service :=
       {| input1 := {| channel := 0; currentValue := 1024 |};
          input2 := {| channel := 1; currentValue := 1024 |};
          input3 := {| channel := 2; currentValue := 1024 |};
          input4 := {| channel := 3; currentValue := 1024 |};
          i2cBus := Some 7%nat;
          enabled := true |};
     trace := [] |}.

(** An enabled service holding bus 7, with nothing in its trace. *)
Definition enabled_World : World :=
  {| service := with_enabled true (with_i2cBus (Some 7%nat)
                                     new_AnalogInputService);
     trace := [] |}.

(** * Properties *)

(** ** Bit-level facts about the decode and the configuration word *)

Lemma to_int32_small (z : Z) :
  - 2 ^ 31 <= z < 2 ^ 31 -> JS.to_int32 z = z.
Proof.
  intros Hz. unfold JS.to_int32.
  rewrite Z.mod_small; lia.
Qed.

Lemma lor_shiftl_8 (a b : Z) :
  0 <= a -> is_byte b -> Z.lor (Z.shiftl a 8) b = a * 256 + b.
Proof.
  intros Ha [Hb0 Hb1].
  assert (Hdisj : Z.land (Z.shiftl a 8) b = 0).
  { apply Z.bits_inj'. intros n Hn.
    rewrite Z.land_spec, Z.bits_0.
    destruct (Z.ltb_spec n 8) as [Hlt | Hge].
    - rewrite Z.shiftl_spec_low by lia. reflexivity.
    - destruct (Z.eq_dec b 0) as [-> | Hnz].
      + rewrite Z.bits_0. apply andb_false_r.
      + rewrite (Z.bits_above_log2 b n); [apply andb_false_r | lia |].
        assert (Z.log2 b < 8) by (apply Z.log2_lt_pow2; lia). lia. }
  rewrite <- Z.lxor_lor by exact Hdisj.
  rewrite <- Z.add_nocarry_lxor by exact Hdisj.
  rewrite Z.shiftl_mul_pow2 by lia. reflexivity.
Qed.

(** What [decode] computes on a two-byte buffer, in plain arithmetic. *)
Lemma decode_bytes (b0 b1 : Z) :
  is_byte b0 -> is_byte b1 ->
  decode [b0; b1] = Z.shiftr (b0 * 256 + b1) 4.
Proof.
  intros H0 H1. pose proof H0 as [? ?]. pose proof H1 as [? ?].
  unfold decode, JS.get, JS.shr, JS.bor, JS.shl. simpl nth.
  change (8 mod 32) with 8. change (4 mod 32) with 4.
  rewrite (to_int32_small b0) by lia.
  rewrite (to_int32_small b1) by lia.
  rewrite Z.shiftl_mul_pow2 by lia.
  rewrite (to_int32_small (b0 * 2 ^ 8)) by lia.
  rewrite (to_int32_small (b0 * 2 ^ 8)) by lia.
  rewrite <- Z.shiftl_mul_pow2 by lia.
  rewrite lor_shiftl_8 by (assumption || lia).
  rewrite to_int32_small by lia. reflexivity.
Qed.

Lemma decode_bytes_range (b0 b1 : Z) :
  is_byte b0 -> is_byte b1 -> 0 <= decode [b0; b1] <= 4095.
Proof.
  intros H0 H1. rewrite decode_bytes by assumption.
  destruct H0, H1. rewrite Z.shiftr_div_pow2 by lia.
  change (2 ^ 4) with 16. split.
  - apply Z.div_pos; lia.
  - apply Z.lt_succ_r. apply Z.div_lt_upper_bound; lia.
Qed.

(** A buffer keeps its length and holds bytes, whatever is stored into it. *)
Lemma set_length (buf : JS.Buffer) (i : nat) (v : Z) :
  List.length (JS.set buf i v) = List.length buf.
Proof.
  revert i. induction buf as [| b rest IH]; intros [| j]; simpl; auto.
Qed.

Lemma to_uint8_byte (v : Z) : is_byte (JS.to_uint8 v).
Proof. unfold is_byte, JS.to_uint8. apply Z.mod_pos_bound. lia. Qed.

Lemma set_bytes (buf : JS.Buffer) (i : nat) (v : Z) :
  Forall is_byte buf -> Forall is_byte (JS.set buf i v).
Proof.
  intros H. revert i. induction H as [| b rest Hb Hrest IH]; intros [| j];
    simpl; constructor; auto using to_uint8_byte.
Qed.

Lemma fill_from_length (vs : list Z) (buf : JS.Buffer) (i : nat) :
  List.length (JS.fill_from buf i vs) = List.length buf.
Proof.
  revert buf i. induction vs as [| v rest IH]; intros buf i; simpl.
  - reflexivity.
  - rewrite IH. apply set_length.
Qed.

Lemma fill_from_bytes (vs : list Z) (buf : JS.Buffer) (i : nat) :
  Forall is_byte buf -> Forall is_byte (JS.fill_from buf i vs).
Proof.
  revert buf i. induction vs as [| v rest IH]; intros buf i H; simpl.
  - exact H.
  - apply IH. apply set_bytes. exact H.
Qed.

(** Whatever the transport stores, the decoded sample is a 12-bit value. *)
Lemma decode_fill_range (stored : list Z) :
  0 <= decode (JS.fill_from (JS.alloc 2) 0 stored) <= 4095.
Proof.
  pose proof (fill_from_length stored (JS.alloc 2) 0) as Hlen.
  assert (Hb : Forall is_byte (JS.fill_from (JS.alloc 2) 0 stored)).
  { apply fill_from_bytes. repeat constructor; unfold is_byte; lia. }
  destruct (JS.fill_from (JS.alloc 2) 0 stored) as [| x [| y [| z t]]];
    try discriminate Hlen.
  inversion Hb as [| ? ? Hx Hrest]; subst.
  inversion Hrest as [| ? ? Hy _]; subst.
  apply decode_bytes_range; assumption.
Qed.

Lemma fill_two_bytes (b0 b1 : Z) :
  is_byte b0 -> is_byte b1 ->
  JS.fill_from (JS.alloc 2) 0 [b0; b1] = [b0; b1].
Proof.
  intros [? ?] [? ?]. simpl. unfold JS.to_uint8.
  rewrite !Z.mod_small by lia. reflexivity.
Qed.

Lemma valid_channel_cases (N : Z) :
  0 <= N <= 3 -> N = 0 \/ N = 1 \/ N = 2 \/ N = 3.
Proof. lia. Qed.

Lemma select_mux_valid (N : Z) :
  0 <= N <= 3 ->
  exists config,
    select_mux base_config N = Some config /\
    config = spec_config_word N /\
    0 <= config < 65536 /\
    configBytes config = big_endian (spec_config_word N).
Proof.
  intros H.
  destruct (valid_channel_cases N H) as [-> | [-> | [-> | ->]]];
    eexists; (split; [reflexivity |]); vm_compute; intuition congruence.
Qed.

Lemma select_mux_invalid (N : Z) :
  ~ 0 <= N <= 3 -> select_mux base_config N = None.
Proof.
  intros H. unfold select_mux.
  destruct (Z.eqb_spec N 0); [lia |].
  destruct (Z.eqb_spec N 1); [lia |].
  destruct (Z.eqb_spec N 2); [lia |].
  destruct (Z.eqb_spec N 3); [lia |].
  reflexivity.
Qed.

(** ** One conversion, step by step *)

Section Conversion.

Variable env : Collaborators.

Lemma readChannel_run (w : World) (bus : handle) (N : Z) :
  enabled (service w) = true ->
  i2cBus (service w) = Some bus ->
  0 <= N <= 3 ->
  readChannel env N w =
    match write_answer env (trace w) bus N with
    | Throw e => (Throw e, extend w [write_config bus N])
    | Ok _ =>
        match read_answer env (trace w) bus N with
        | Throw e => (Throw e, extend w (conversion bus N))
        | Ok stored =>
            (Ok (decode (JS.fill_from (JS.alloc 2) 0 stored)),
             extend w (conversion bus N))
        end
    end.
Proof.
  intros He Hb HN.
  destruct (select_mux_valid N HN) as (config & Hsel & _ & _ & Hbytes).
  unfold readChannel, bind, this. rewrite He, Hb, Hsel.
  unfold call, emit, ret, write_answer, read_answer, extend, conversion.
  cbn [trace service]. rewrite Hbytes.
  change address with 0x48.
  change ADS1015_REG_CONFIG with 0x01.
  change ADS1015_REG_CONVERSION with 0x00.
  fold (write_config bus N). fold (read_conversion bus).
  destruct (bus_writeI2cBlockSync env (trace w) bus 72 1 2
              (big_endian (spec_config_word N))) as [n | e];
    [| reflexivity].
  rewrite <- !app_assoc. cbn [app].
  destruct (bus_readI2cBlockSync env _ bus 72 0 2) as [stored | e];
    reflexivity.
Qed.

Lemma readChannel_not_enabled (w : World) (N : Z) :
  enabled (service w) = false \/ i2cBus (service w) = None ->
  readChannel env N w = (Throw (Error not_enabled_message), w).
Proof.
  intros H. unfold readChannel, bind, this, throw.
  destruct (enabled (service w)), (i2cBus (service w));
    try reflexivity; destruct H; discriminate.
Qed.

Lemma readChannel_invalid (w : World) (bus : handle) (N : Z) :
  enabled (service w) = true ->
  i2cBus (service w) = Some bus ->
  ~ 0 <= N <= 3 ->
  readChannel env N w =
    (Throw (Error ("Invalid channel: " ++ JS.toString N
                   ++ ". Must be 0-3.")%string), w).
Proof.
  intros He Hb HN. unfold readChannel, bind, this, throw.
  rewrite He, Hb, (select_mux_invalid N HN). reflexivity.
Qed.

(** [readChannel] never touches a field of the service. *)
Lemma readChannel_service (w : World) (N : Z) :
  service (snd (readChannel env N w)) = service w.
Proof.
  unfold readChannel, bind, this, throw, call, emit, ret.
  destruct (enabled (service w)); [| reflexivity].
  destruct (i2cBus (service w)) as [bus |]; [| reflexivity].
  destruct (select_mux base_config N) as [config |]; [| reflexivity].
  cbn [trace service].
  destruct (bus_writeI2cBlockSync env _ _ _ _ _ _); [| reflexivity].
  destruct (bus_readI2cBlockSync env _ _ _ _ _); reflexivity.
Qed.

(** What it returns is a 12-bit value. *)
Lemma readChannel_range (w : World) (N v : Z) :
  fst (readChannel env N w) = Ok v -> 0 <= v <= 4095.
Proof.
  unfold readChannel, bind, this, throw, call, emit, ret.
  destruct (enabled (service w)); [| discriminate].
  destruct (i2cBus (service w)) as [bus |]; [| discriminate].
  destruct (select_mux base_config N) as [config |]; [| discriminate].
  cbn [trace service].
  destruct (bus_writeI2cBlockSync env _ _ _ _ _ _); [| discriminate].
  destruct (bus_readI2cBlockSync env _ _ _ _ _) as [stored |];
    [| discriminate].
  cbn [fst]. intros [= <-]. apply decode_fill_range.
Qed.

End Conversion.

(** C4: for a valid channel N, readChannel first writes the configuration
    word, high byte first, to register 0x01 of device 0x48; the word is the
    OR of the fixed flags with the multiplexer selector 0x4000 + N*0x1000
    and fits 16 bits.  The conversion-result read comes after that write
    (and after the wait), and only when the write did not fail. *)
Theorem C4_config_word_written_before_read :
  forall (env : Collaborators) (w : World) (bus : handle) (N : Z),
    enabled (service w) = true ->
    i2cBus (service w) = Some bus ->
    0 <= N <= 3 ->
    let word :=
      Z.lor (Z.lor 0x0003 (Z.lor 0x0000 (Z.lor 0x0000 (Z.lor 0x0000
               (Z.lor 0x0080 (Z.lor 0x0100 (Z.lor 0x0200 0x8000)))))))
            (0x4000 + N * 0x1000) in
    0 <= word < 65536 /\
    Z.land word 0x7000 = 0x4000 + N * 0x1000 /\
    trace (snd (readChannel env N w)) =
      trace w
      ++ WriteI2cBlockSync bus 0x48 0x01 2 [word / 256; word mod 256]
      :: match bus_writeI2cBlockSync env (trace w) bus 0x48 0x01 2
                 [word / 256; word mod 256] with
         | Ok _ => [BusyWait 2; ReadI2cBlockSync bus 0x48 0x00 2]
         | Throw _ => []
         end.
Proof.
  intros env w bus N He Hb HN word.
  split; [| split].
  - destruct (valid_channel_cases N HN) as [-> | [-> | [-> | ->]]];
      vm_compute; intuition congruence.
  - destruct (valid_channel_cases N HN) as [-> | [-> | [-> | ->]]];
      reflexivity.
  - rewrite (readChannel_run env w bus N He Hb HN).
    unfold write_answer, read_answer.
    change (big_endian (spec_config_word N)) with [word / 256; word mod 256].
    destruct (bus_writeI2cBlockSync env (trace w) bus 72 1 2 _) as [n | e];
      [| reflexivity].
    destruct (bus_readI2cBlockSync env _ bus 72 0 2); reflexivity.
Qed.

Lemma C4_config_word_written_before_read_witness :
  trace (snd (readChannel (healthy 0x7F 0xF0) 2 enabled_World)) =
    [WriteI2cBlockSync 7%nat 0x48 0x01 2 [0xE3; 0x83];
     BusyWait 2;
     ReadI2cBlockSync 7%nat 0x48 0x00 2].
Proof.
  pose proof (C4_config_word_written_before_read
                (healthy 0x7F 0xF0) enabled_World 7%nat 2) as H.
  destruct H as (_ & _ & H); [reflexivity | reflexivity | lia |].
  exact H.
Defined.

(** C3: readChannel returns the two conversion bytes combined big-endian
    into a 16-bit value and shifted right by 4; 0x7FF0 decodes to 2047,
    0x4000 to 1024 and 0x2000 to 512. *)
Theorem C3_readChannel_decodes :
  forall (env : Collaborators) (w : World) (bus : handle) (N n b0 b1 : Z),
    enabled (service w) = true ->
    i2cBus (service w) = Some bus ->
    0 <= N <= 3 ->
    write_answer env (trace w) bus N = Ok n ->
    read_answer env (trace w) bus N = Ok [b0; b1] ->
    0 <= b0 < 256 ->
    0 <= b1 < 256 ->
    fst (readChannel env N w) = Ok (Z.shiftr (b0 * 256 + b1) 4) /\
    (b0 * 256 + b1 = 0x7FF0 -> fst (readChannel env N w) = Ok 2047) /\
    (b0 * 256 + b1 = 0x4000 -> fst (readChannel env N w) = Ok 1024) /\
    (b0 * 256 + b1 = 0x2000 -> fst (readChannel env N w) = Ok 512).
Proof.
  intros env w bus N n b0 b1 He Hb HN Hw Hr H0 H1.
  assert (Hres : fst (readChannel env N w) = Ok (Z.shiftr (b0 * 256 + b1) 4)).
  { rewrite (readChannel_run env w bus N He Hb HN), Hw, Hr.
    cbn [fst]. rewrite fill_two_bytes by assumption.
    rewrite decode_bytes by assumption. reflexivity. }
  repeat split; try exact Hres; intros Hv; rewrite Hres, Hv; reflexivity.
Qed.

(** The three reference conversions of the test suite. *)
Example decode_reference_values :
  decode [0x7F; 0xF0] = 2047 /\ decode [0x40; 0x00] = 1024 /\
  decode [0x20; 0x00] = 512.
Proof. repeat split; reflexivity. Qed.

Lemma C3_readChannel_decodes_witness :
  fst (readChannel (healthy 0x7F 0xF0) 0 enabled_World) = Ok 2047.
Proof.
  pose proof (C3_readChannel_decodes (healthy 0x7F 0xF0) enabled_World
                7%nat 0 2 0x7F 0xF0) as H.
  destruct H as (_ & H & _);
    [reflexivity | reflexivity | lia | reflexivity | reflexivity | lia | lia |].
  apply H. reflexivity.
Defined.

(** C8: on an enabled driver, a channel argument outside 0..3 makes
    readChannel throw an error with message "Invalid channel: N. Must be
    0-3."; the world is left as it was, so no bus write or read (nor any
    other call) has been made. *)
Theorem C8_invalid_channel_rejected_before_bus :
  forall (env : Collaborators) (w : World) (bus : handle) (N : Z),
    enabled (service w) = true ->
    i2cBus (service w) = Some bus ->
    JS.isSafeInteger N ->
    ~ 0 <= N <= 3 ->
    readChannel env N w =
      (Throw (Error ("Invalid channel: " ++ JS.toString N
                     ++ ". Must be 0-3.")%string), w) /\
    trace (snd (readChannel env N w)) = trace w.
Proof.
  intros env w bus N He Hb _ HN.
  rewrite (readChannel_invalid env w bus N He Hb HN). split; reflexivity.
Qed.

Lemma C8_invalid_channel_rejected_before_bus_witness :
  readChannel (healthy 0 0) 4 enabled_World =
    (Throw (Error "Invalid channel: 4. Must be 0-3."), enabled_World) /\
  readChannel (healthy 0 0) (-1) enabled_World =
    (Throw (Error "Invalid channel: -1. Must be 0-3."), enabled_World).
Proof.
  split.
  - apply (C8_invalid_channel_rejected_before_bus
             (healthy 0 0) enabled_World 7%nat 4);
      [reflexivity | reflexivity | unfold JS.isSafeInteger; simpl; lia | lia].
  - apply (C8_invalid_channel_rejected_before_bus
             (healthy 0 0) enabled_World 7%nat (-1));
      [reflexivity | reflexivity | unfold JS.isSafeInteger; simpl; lia | lia].
Defined.

(** ** Channel objects *)


Lemma input_with_input_same (i : slot) (a : AnalogInput) (s : AnalogInputService) :
  input i (with_input i a s) = a.
Proof. destruct i; reflexivity. Qed.

Lemma input_with_input_other (i j : slot) (a : AnalogInput) (s : AnalogInputService) :
  i <> j -> input j (with_input i a s) = input j s.
Proof. destruct i, j; intros H; try reflexivity; congruence. Qed.

Lemma with_input_fields (i : slot) (a : AnalogInput) (s : AnalogInputService) :
  enabled (with_input i a s) = enabled s /\
  i2cBus (with_input i a s) = i2cBus s.
Proof. destruct i; split; reflexivity. Qed.

Lemma with_input_channels (i : slot) (v : Z) (s : AnalogInputService) :
  (forall j, channel (input j s) = slot_channel j) ->
  forall j, channel (input j (with_input i (with_currentValue v (input i s)) s))
            = slot_channel j.
Proof.
  intros H j. specialize (H j). destruct i, j; exact H.
Qed.

Section Channels.

Variable env : Collaborators.

(** [AnalogInput.read] in terms of the driver call it delegates to. *)
Lemma AnalogInput_read_unfold (i : slot) (w : World) :
  AnalogInput_read env i w =
    match readChannel env (channel (input i (service w))) w with
    | (Throw e, w') => (Throw e, w')
    | (Ok v, w') =>
        (Ok v,
         {| service :=
              with_input i (with_currentValue v (input i (service w')))
                (service w');
            trace := trace w' |})
    end.
Proof.
  unfold AnalogInput_read, bind, this, update, ret.
  destruct (readChannel env _ w) as [[v | e] w']; [| reflexivity].
  cbn [service trace]. rewrite input_with_input_same. reflexivity.
Qed.



Lemma read_enabled (w : World) :
  enabled (service w) = true ->
  read env w = read_each env [Input1; Input2; Input3; Input4] w.
Proof.
  intros He. unfold read. unfold bind at 1. unfold this at 1.
  rewrite He. reflexivity.
Qed.

End Channels.

(** C7: if the driver call throws, [AnalogInput.read] ends with the same
    error in the same world, in which the cached sample is the one it held
    before; if the driver call returns [v], [read] returns [v] and the
    cached sample is [v], nothing else being changed. *)
Theorem C7_channel_read_stores_or_propagates :
  forall (env : Collaborators) (i : slot) (w : World),
    match readChannel env (channel (input i (service w))) w with
    | (Throw e, w') =>
        AnalogInput_read env i w = (Throw e, w') /\
        currentValue (input i (service w')) = currentValue (input i (service w))
    | (Ok v, w') =>
        let w'' := snd (AnalogInput_read env i w) in
        fst (AnalogInput_read env i w) = Ok v /\
        raw (input i (service w'')) = v /\
        trace w'' = trace w' /\
        (forall j, j <> i -> input j (service w'') = input j (service w))
    end.
Proof.
  intros env i w. rewrite AnalogInput_read_unfold.
  pose proof (readChannel_service env w (channel (input i (service w)))) as Hs.
  destruct (readChannel env _ w) as [[v | e] w']; cbn [snd] in Hs.
  - cbn [fst snd service trace]. unfold raw.
    rewrite input_with_input_same. repeat split.
    intros j Hj. rewrite input_with_input_other by congruence.
    rewrite Hs. reflexivity.
  - rewrite Hs. split; reflexivity.
Qed.

Lemma well_formed_new : well_formed new_AnalogInputService.
Proof.
  split; [| split].
  - intros []; reflexivity.
  - discriminate.
  - reflexivity.
Qed.

Lemma well_formed_enabled_World : well_formed (service enabled_World).
Proof.
  split; [| split].
  - intros []; reflexivity.
  - intros _. exists 7%nat. reflexivity.
  - discriminate.
Qed.

(** *** From the answers of the transport to the outcome of read() *)

Section ReadForward.

Variable env : Collaborators.





End ReadForward.




(** The run behind the witness: channels 0 and 1 are converted, the read of
    channel 2 fails, and channel 3 is never selected. *)
Example read_stops_at_third_channel :
  read third_read_fails enabled_World =
    (Throw (Error "EREMOTEIO"),
     {| service :=
          {| input1 := {| channel := 0; currentValue := 1024 |};
             input2 := {| channel := 1; currentValue := 1024 |};
             input3 := {| channel := 2; currentValue := 0 |};
             input4 := {| channel := 3; currentValue := 0 |};
             i2cBus := Some 7%nat;
             enabled := true |};
        trace := conversion 7%nat 0 ++ conversion 7%nat 1
                 ++ conversion 7%nat 2 |}).
Proof. vm_compute. reflexivity. Qed.

(** ** Lifecycle: enable and disable *)

(** Project fields out of the worlds built so far. *)
Ltac fields :=
  cbn [service trace enabled i2cBus with_enabled with_i2cBus negb fst snd].

(** Run a method body down to the answers of the collaborators. *)
Ltac run_body :=
  unfold enable, disable, bind, try_catch, this, call, emit, update, ret, throw;
  fields.

(** Split on every answer still undecided in the goal. *)
Ltac split_answers :=
  repeat match goal with
         | |- context [match ?a with Ok _ => _ | Throw _ => _ end] =>
             let E := fresh "Ans" in
             destruct a eqn:E; fields
         end;
  repeat match goal with u : unit |- _ => destruct u end.

(** Write every history as the starting trace followed by one list. *)
Ltac flatten_traces :=
  repeat rewrite <- app_assoc in *; cbn [app] in *.

Section Lifecycle.

Variable env : Collaborators.

Lemma enable_when_enabled (w : World) :
  enabled (service w) = true -> enable env w = (Ok tt, w).
Proof. intros He. run_body. rewrite He. reflexivity. Qed.

Lemma disable_when_disabled (w : World) :
  enabled (service w) = false -> disable env w = (Ok tt, w).
Proof. intros He. run_body. rewrite He. reflexivity. Qed.

(** A failed open leaves the service as it was. *)
Lemma enable_open_fails (w : World) (e : exn) :
  enabled (service w) = false ->
  i2c_openSync env (trace w) 1 = Throw e ->
  enable env w =
    (Throw e,
     extend w [OpenSync 1;
               ConsoleError "Failed to enable AnalogInputService:" e]).
Proof.
  intros He Ho. run_body. rewrite He, Ho. fields. unfold extend.
  flatten_traces. reflexivity.
Qed.

(** Once the bus is open the service is enabled, whatever the lights do. *)
Lemma enable_open_succeeds (w : World) (bus : handle) :
  enabled (service w) = false ->
  i2c_openSync env (trace w) 1 = Ok bus ->
  service (snd (enable env w)) =
    with_enabled true (with_i2cBus (Some bus) (service w)) /\
  count is_open (trace (snd (enable env w))) =
    S (count is_open (trace w)).
Proof.
  intros He Ho. run_body. rewrite He, Ho. fields.
  split_answers; (split; [reflexivity |]);
    unfold count; rewrite !filter_app, !length_app; cbn; lia.
Qed.

(** A failed close leaves the service as it was; a successful one clears
    the handle and the flag, whatever the lights do. *)
Lemma disable_close_fails (w : World) (bus : handle) (e : exn) :
  enabled (service w) = true ->
  i2cBus (service w) = Some bus ->
  bus_closeSync env (trace w) bus = Throw e ->
  disable env w =
    (Ok tt,
     extend w [CloseSync bus;
               ConsoleError "Failed to disable AnalogInputService:" e]).
Proof.
  intros He Hb Hc. run_body. rewrite He, Hb. cbn [negb].
  fields.
  rewrite Hc. fields. unfold extend. flatten_traces. reflexivity.
Qed.

Lemma disable_close_succeeds (w : World) (bus : handle) :
  enabled (service w) = true ->
  i2cBus (service w) = Some bus ->
  bus_closeSync env (trace w) bus = Ok tt ->
  fst (disable env w) = Ok tt /\
  service (snd (disable env w)) =
    with_enabled false (with_i2cBus None (service w)) /\
  count is_close (trace (snd (disable env w))) =
    S (count is_close (trace w)).
Proof.
  intros He Hb Hc. run_body. rewrite He, Hb. cbn [negb].
  fields.
  rewrite Hc. fields.
  split_answers; (split; [reflexivity |]); (split; [reflexivity |]);
    unfold count; rewrite !filter_app, !length_app; cbn; lia.
Qed.

(** [disable] returns normally in every case. *)
Lemma disable_returns (w : World) : fst (disable env w) = Ok tt.
Proof.
  run_body. destruct (enabled (service w)); [| reflexivity]. cbn [negb].
  destruct (i2cBus (service w)) as [bus |];
    fields;
    split_answers; reflexivity.
Qed.

End Lifecycle.

(** Decide [caught_and_logged] and [no_failure] from the answers at hand. *)
Ltac use_answers :=
  cbn [caught_and_logged no_failure raised to_raised];
  repeat match goal with
         | H : ?a = Ok _ |- context [to_raised ?a] =>
             rewrite H; cbn [caught_and_logged no_failure raised to_raised]
         | H : ?a = Throw _ |- context [to_raised ?a] =>
             rewrite H; cbn [caught_and_logged no_failure raised to_raised]
         end.

(** C1 (as amended): disable() never propagates an error: it returns
    normally from every world and with every collaborator.  An error raised
    by the bus close or by a light call is followed in the trace by its log
    entry and ends the work of disable().  Unless the bus close itself is
    the call that fails, the driver is left with enabled == false and no
    bus handle. *)
Theorem C1_disable_catches_and_logs :
  forall (env : Collaborators) (w : World),
    well_formed (service w) ->
    let w' := snd (disable env w) in
    fst (disable env w) = Ok tt /\
    (exists new : list event,
       trace w' = trace w ++ new /\
       caught_and_logged "Failed to disable AnalogInputService:" env
         (trace w) new) /\
    ((forall bus e,
        i2cBus (service w) = Some bus ->
        bus_closeSync env (trace w) bus <> Throw e) ->
     enabled (service w') = false /\ i2cBus (service w') = None).
Proof.
  intros env w (_ & _ & Hoff) w'. subst w'.
  split; [apply disable_returns |].
  run_body. destruct (enabled (service w)) eqn:He; fields.
  - destruct (i2cBus (service w)) as [bus |] eqn:Hb; fields.
    + destruct (bus_closeSync env (trace w) bus) as [[] | e] eqn:Hc; fields.
      * split_answers;
          (split;
           [eexists; split; [flatten_traces; reflexivity | use_answers; auto]
           | intros _; split; reflexivity]).
      * split.
        -- eexists; split; [flatten_traces; reflexivity | use_answers; auto].
        -- intros Hclose. exfalso. exact (Hclose bus e eq_refl Hc).
    + split_answers;
        (split;
         [eexists; split; [flatten_traces; reflexivity | use_answers; auto]
         | intros _; split; [reflexivity | exact Hb]]).
  - split.
    + exists []. rewrite app_nil_r. split; [reflexivity | exact I].
    + intros _. split; [exact He | apply Hoff; reflexivity].
Qed.

Lemma C1_disable_catches_and_logs_witness :
  let w' := snd (disable light_fails enabled_World) in
  fst (disable light_fails enabled_World) = Ok tt /\
  (exists new : list event,
     trace w' = trace enabled_World ++ new /\
     caught_and_logged "Failed to disable AnalogInputService:" light_fails
       (trace enabled_World) new) /\
  enabled (service w') = false /\ i2cBus (service w') = None.
Proof.
  pose proof (C1_disable_catches_and_logs light_fails enabled_World
                well_formed_enabled_World) as (Hret & Hlog & Hstate).
  split; [exact Hret | split; [exact Hlog |]].
  apply Hstate. intros bus e _. simpl. discriminate.
Defined.

(** The run behind the witness: the second light fails, the error is logged
    and the third light and the update are skipped. *)
Example disable_with_failing_light :
  disable light_fails enabled_World =
    (Ok tt,
     {| service := new_AnalogInputService;
        trace := [CloseSync 7%nat; LightOff analogInput1;
                  LightOff analogInput2;
                  ConsoleError "Failed to disable AnalogInputService:"
                    (Error "rpio")] |}).
Proof. reflexivity. Qed.

(** C1 as stated fails when the bus close itself throws: disable() returns
    normally and logs the error, but the driver is still enabled and still
    holds the bus handle. *)
Lemma C1_counterexample_close_fails :
  disable close_fails enabled_World =
    (Ok tt,
     {| service := service enabled_World;
        trace := [CloseSync 7%nat;
                  ConsoleError "Failed to disable AnalogInputService:"
                    (Error "EIO")] |}) /\
  ~ (enabled (service (snd (disable close_fails enabled_World))) = false /\
     i2cBus (service (snd (disable close_fails enabled_World))) = None).
Proof.
  split; [reflexivity |].
  intros [H _]. discriminate H.
Qed.

(** When the bus open returns and a light activation throws, after the
    activations before it returned: enable() throws that error, having
    logged it, skipped the activations after it, and already set the
    handle and the flag. *)
Lemma enable_light_fails (env : Collaborators) (w : World) (bus : handle)
    (e : exn) (calls rest : list event) (ev : event) :
  enabled (service w) = false ->
  i2c_openSync env (trace w) 1 = Ok bus ->
  [LightOn analogInput1; LightOn analogInput2; LightOn analogInput3;
   LightUpdate] = calls ++ ev :: rest ->
  no_failure env (trace w ++ [OpenSync 1]) calls ->
  raised env (trace w ++ OpenSync 1 :: calls) ev = Some e ->
  enable env w =
    (Throw e,
     {| service := with_enabled true (with_i2cBus (Some bus) (service w));
        trace := trace w ++ OpenSync 1 :: calls
                 ++ [ev; ConsoleError "Failed to enable AnalogInputService:"
                           e] |}).
Proof.
  intros He Ho Hsplit Hnf Hraise.
  destruct calls as [| c1 [| c2 [| c3 [| c4 more]]]];
    cbn [app] in Hsplit; inversion Hsplit; subst;
    try match goal with
        | H : [] = ?m ++ _ :: _ |- _ => destruct m; discriminate H
        end;
    clear Hsplit;
    cbn [no_failure raised] in Hnf, Hraise;
    run_body; rewrite He, Ho; fields;
    flatten_traces;
    repeat match goal with H : _ /\ _ |- _ => destruct H end;
    split_answers;
    try match goal with
        | H : to_raised (Throw _) = None |- _ => discriminate H
        end;
    try match goal with
        | H : to_raised (Ok _) = Some _ |- _ => discriminate H
        end;
    match goal with
    | H : to_raised (Throw _) = Some _ |- _ => injection H as ->
    end;
    flatten_traces; reflexivity.
Qed.

(** C10: when the bus open succeeds and one of the light activations (an
    on() or the update()) throws [e], the activations before it having
    returned, enable() throws [e] itself, after logging it and without
    calling the activations after it, and leaves the service enabled with
    the bus handle it opened: a later enable() is a no-op and a later
    readChannel on a working transport returns a sample.  Conversely, when
    the bus open succeeds and enable() throws [e], [e] was raised by one of
    the light activations and has been logged, and the service is in that
    same state.  When the bus open itself fails, enable() throws and the
    service is left exactly as it was. *)
Theorem C10_enable_partial_state_after_light_failure :
  forall (env : Collaborators) (w : World),
    enabled (service w) = false ->
    (forall (bus : handle) (e : exn) (calls rest : list event) (ev : event),
       i2c_openSync env (trace w) 1 = Ok bus ->
       [LightOn analogInput1; LightOn analogInput2; LightOn analogInput3;
        LightUpdate] = calls ++ ev :: rest ->
       no_failure env (trace w ++ [OpenSync 1]) calls ->
       raised env (trace w ++ OpenSync 1 :: calls) ev = Some e ->
       let w' := snd (enable env w) in
       fst (enable env w) = Throw e /\
       trace w' =
         trace w ++ OpenSync 1 :: calls
         ++ [ev; ConsoleError "Failed to enable AnalogInputService:" e] /\
       enabled (service w') = true /\
       i2cBus (service w') = Some bus /\
       enable env w' = (Ok tt, w') /\
       (forall (N n : Z) (stored : list Z),
          0 <= N <= 3 ->
          write_answer env (trace w') bus N = Ok n ->
          read_answer env (trace w') bus N = Ok stored ->
          fst (readChannel env N w') =
            Ok (decode (JS.fill_from (JS.alloc 2) 0 stored)))) /\
    (forall (bus : handle) (e : exn),
       i2c_openSync env (trace w) 1 = Ok bus ->
       fst (enable env w) = Throw e ->
       let w' := snd (enable env w) in
       (exists (calls : list event) (ev : event),
          trace w' =
            trace w ++ OpenSync 1 :: calls
            ++ [ev; ConsoleError "Failed to enable AnalogInputService:" e] /\
          is_light_activation ev /\
          raised env (trace w ++ OpenSync 1 :: calls) ev = Some e) /\
       enabled (service w') = true /\
       i2cBus (service w') = Some bus /\
       enable env w' = (Ok tt, w') /\
       (forall (N n : Z) (stored : list Z),
          0 <= N <= 3 ->
          write_answer env (trace w') bus N = Ok n ->
          read_answer env (trace w') bus N = Ok stored ->
          fst (readChannel env N w') =
            Ok (decode (JS.fill_from (JS.alloc 2) 0 stored)))) /\
    (forall e : exn,
       i2c_openSync env (trace w) 1 = Throw e ->
       fst (enable env w) = Throw e /\
       service (snd (enable env w)) = service w).
Proof.
  intros env w He.
  assert (Hstate : forall bus,
            i2c_openSync env (trace w) 1 = Ok bus ->
            let w' := snd (enable env w) in
            enabled (service w') = true /\
            i2cBus (service w') = Some bus /\
            enable env w' = (Ok tt, w') /\
            (forall (N n : Z) (stored : list Z),
               0 <= N <= 3 ->
               write_answer env (trace w') bus N = Ok n ->
               read_answer env (trace w') bus N = Ok stored ->
               fst (readChannel env N w') =
                 Ok (decode (JS.fill_from (JS.alloc 2) 0 stored)))).
  { intros bus Ho w'.
    destruct (enable_open_succeeds env w bus He Ho) as [Hsvc _].
    assert (Hen : enabled (service w') = true)
      by (subst w'; rewrite Hsvc; reflexivity).
    assert (Hbus : i2cBus (service w') = Some bus)
      by (subst w'; rewrite Hsvc; reflexivity).
    split; [exact Hen | split; [exact Hbus | split]].
    - apply enable_when_enabled. exact Hen.
    - intros N n stored HN Hw Hr.
      rewrite (readChannel_run env w' bus N Hen Hbus HN), Hw, Hr.
      reflexivity. }
  split; [| split].
  - intros bus e calls rest ev Ho Hsplit Hnf Hraise w'.
    pose proof (enable_light_fails env w bus e calls rest ev
                  He Ho Hsplit Hnf Hraise) as Hrun.
    split; [subst w'; rewrite Hrun; reflexivity |].
    split; [subst w'; rewrite Hrun; reflexivity |].
    exact (Hstate bus Ho).
  - intros bus e Ho Hthrow w'.
    split; [| exact (Hstate bus Ho)].
    subst w'. revert Hthrow.
    run_body. rewrite He, Ho. fields.
    split_answers; intros [= <-]; flatten_traces; unfold is_light_activation.
    + exists [LightOn analogInput1; LightOn analogInput2;
              LightOn analogInput3], LightUpdate.
      cbn [app raised]. rewrite Ans2. auto 6.
    + exists [LightOn analogInput1; LightOn analogInput2],
             (LightOn analogInput3).
      cbn [app raised]. rewrite Ans1. auto 6.
    + exists [LightOn analogInput1], (LightOn analogInput2).
      cbn [app raised]. rewrite Ans0. auto 6.
    + exists [], (LightOn analogInput1).
      cbn [app raised]. rewrite Ans. auto 6.
  - intros e Ho. rewrite (enable_open_fails env w e He Ho).
    split; reflexivity.
Qed.

Lemma C10_enable_partial_state_after_light_failure_witness :
  let w' := snd (enable light_fails new_World) in
  fst (enable light_fails new_World) = Throw (Error "rpio") /\
  trace w' =
    [OpenSync 1; LightOn analogInput1; LightOn analogInput2;
     ConsoleError "Failed to enable AnalogInputService:" (Error "rpio")] /\
  enabled (service w') = true /\
  i2cBus (service w') = Some 7%nat /\
  enable light_fails w' = (Ok tt, w') /\
  fst (readChannel light_fails 0 w') = Ok 1024 /\
  service (snd (enable open_fails new_World)) = service new_World.
Proof.
  destruct (C10_enable_partial_state_after_light_failure
              light_fails new_World eq_refl) as (Hlight & _ & _).
  destruct (Hlight 7%nat (Error "rpio") [LightOn analogInput1]
              [LightOn analogInput3; LightUpdate] (LightOn analogInput2)
              eq_refl eq_refl (conj eq_refl I) eq_refl)
    as (Hthrow & Htrace & Hen & Hbus & Hnoop & Hread).
  destruct (C10_enable_partial_state_after_light_failure
              open_fails new_World eq_refl) as (_ & _ & Hopen).
  destruct (Hopen (Error "ENOENT") eq_refl) as (_ & Hsame).
  cbv zeta.
  split; [exact Hthrow |].
  split; [exact Htrace |].
  split; [exact Hen |].
  split; [exact Hbus |].
  split; [exact Hnoop |].
  split; [| exact Hsame].
  apply (Hread 0 2 [0x40; 0x00]); [lia | reflexivity | reflexivity].
Defined.

(** The run behind the witness. *)
Example enable_with_failing_light :
  enable light_fails new_World =
    (Throw (Error "rpio"),
     {| service := service enabled_World;
        trace := [OpenSync 1; LightOn analogInput1; LightOn analogInput2;
                  ConsoleError "Failed to enable AnalogInputService:"
                    (Error "rpio")] |}).
Proof. reflexivity. Qed.

(** ** Repeated calls *)

Lemma run_cons (env : Collaborators) (m : method) (ms : list method) (w : World) :
  run env (m :: ms) w = run env ms (invoke env m w).
Proof. reflexivity. Qed.

Lemma run_repeat_noop (env : Collaborators) (m : method) (w : World) :
  invoke env m w = w -> forall n, run env (repeat m n) w = w.
Proof.
  intros Hnoop n. induction n as [| n IH]; [reflexivity |].
  cbn [repeat]. rewrite run_cons, Hnoop. exact IH.
Qed.

(** C9 (as amended): starting from a disabled driver whose bus open
    succeeds, any number of enable() calls in a row opens the bus exactly
    once, and every call after the first is a no-op; starting from an
    enabled driver whose bus close succeeds, any number of disable() calls
    in a row closes the bus exactly once, and every call after the first
    is a no-op. *)
Theorem C9_enable_disable_idempotent :
  forall (env : Collaborators) (w : World) (bus : handle),
    (enabled (service w) = false ->
     i2c_openSync env (trace w) 1 = Ok bus ->
     let w1 := snd (enable env w) in
     enable env w1 = (Ok tt, w1) /\
     forall n : nat,
       run env (repeat CallEnable (S n)) w = w1 /\
       count is_open (trace (run env (repeat CallEnable (S n)) w)) =
         S (count is_open (trace w))) /\
    (enabled (service w) = true ->
     i2cBus (service w) = Some bus ->
     bus_closeSync env (trace w) bus = Ok tt ->
     let w1 := snd (disable env w) in
     disable env w1 = (Ok tt, w1) /\
     forall n : nat,
       run env (repeat CallDisable (S n)) w = w1 /\
       count is_close (trace (run env (repeat CallDisable (S n)) w)) =
         S (count is_close (trace w))).
Proof.
  intros env w bus. split.
  - intros He Ho w1.
    destruct (enable_open_succeeds env w bus He Ho) as [Hsvc Hcount].
    assert (Hnoop : enable env w1 = (Ok tt, w1)).
    { apply enable_when_enabled. subst w1. rewrite Hsvc. reflexivity. }
    split; [exact Hnoop |]. intros n.
    assert (Hrun : run env (repeat CallEnable (S n)) w = w1).
    { cbn [repeat]. rewrite run_cons. apply run_repeat_noop.
      cbn [invoke]. fold w1. rewrite Hnoop. reflexivity. }
    rewrite Hrun. split; [reflexivity | exact Hcount].
  - intros He Hb Hc w1.
    destruct (disable_close_succeeds env w bus He Hb Hc)
      as (_ & Hsvc & Hcount).
    assert (Hnoop : disable env w1 = (Ok tt, w1)).
    { apply disable_when_disabled. subst w1. rewrite Hsvc. reflexivity. }
    split; [exact Hnoop |]. intros n.
    assert (Hrun : run env (repeat CallDisable (S n)) w = w1).
    { cbn [repeat]. rewrite run_cons. apply run_repeat_noop.
      cbn [invoke]. fold w1. rewrite Hnoop. reflexivity. }
    rewrite Hrun. split; [reflexivity | exact Hcount].
Qed.

Lemma C9_enable_disable_idempotent_witness :
  count is_open
    (trace (run (healthy 0 0) (repeat CallEnable 3) new_World)) = 1%nat /\
  count is_close
    (trace (run (healthy 0 0) (repeat CallDisable 3) enabled_World)) = 1%nat.
Proof.
  split.
  - apply (proj1 (C9_enable_disable_idempotent (healthy 0 0) new_World 7%nat)
             eq_refl eq_refl).
  - apply (proj2 (C9_enable_disable_idempotent (healthy 0 0)
                    enabled_World 7%nat)
             eq_refl eq_refl eq_refl).
Defined.

(** C9 as stated fails when the bus call fails: two enable() calls on a
    bus that cannot be opened open it twice, and two disable() calls on a
    bus that cannot be closed close it twice. *)
Lemma C9_counterexample_retries :
  count is_open
    (trace (run open_fails [CallEnable; CallEnable] new_World)) = 2%nat /\
  count is_close
    (trace (run close_fails [CallDisable; CallDisable] enabled_World)) = 2%nat.
Proof. split; reflexivity. Qed.

(** ** The cached sample *)

Section Samples.

Variable env : Collaborators.

Lemma enable_inputs (w : World) (i : slot) :
  input i (service (snd (enable env w))) = input i (service w).
Proof.
  run_body. destruct (enabled (service w)); fields; [reflexivity |].
  split_answers; destruct i; reflexivity.
Qed.

Lemma disable_inputs (w : World) (i : slot) :
  input i (service (snd (disable env w))) = input i (service w).
Proof.
  run_body. destruct (enabled (service w)); fields; [| reflexivity].
  destruct (i2cBus (service w)); fields;
    split_answers; destruct i; reflexivity.
Qed.

(** A channel read changes at most its own cached sample, and only when
    the driver call returned. *)
Lemma AnalogInput_read_inputs (w : World) (i j : slot) :
  input j (service (snd (AnalogInput_read env i w))) = input j (service w) \/
  (j = i /\
   exists v, fst (AnalogInput_read env i w) = Ok v /\
             0 <= v <= 4095 /\
             input j (service (snd (AnalogInput_read env i w))) =
               with_currentValue v (input j (service w))).
Proof.
  rewrite AnalogInput_read_unfold.
  pose proof (readChannel_service env w (channel (input i (service w)))) as Hs.
  pose proof (readChannel_range env w (channel (input i (service w)))) as Hr.
  destruct (readChannel env _ w) as [[v | e] w']; cbn [fst snd] in *.
  - cbn [service]. rewrite Hs.
    destruct (slot_eq_dec i j) as [<- | Hne].
    + right. split; [reflexivity |]. exists v.
      rewrite input_with_input_same. auto.
    + left. apply input_with_input_other. exact Hne.
  - left. rewrite Hs. reflexivity.
Qed.

Lemma AnalogInput_read_samples (w : World) (i : slot) :
  samples_in_range (service w) ->
  samples_in_range (service (snd (AnalogInput_read env i w))).
Proof.
  intros H j.
  destruct (AnalogInput_read_inputs w i j) as [-> | (_ & v & _ & Hv & ->)].
  - apply H.
  - exact Hv.
Qed.

Lemma read_each_samples (slots : list slot) :
  forall w, samples_in_range (service w) ->
            samples_in_range (service (snd (read_each env slots w))).
Proof.
  induction slots as [| i rest IH]; intros w H; [exact H |].
  cbn [read_each]. unfold bind.
  pose proof (AnalogInput_read_samples w i H) as H1.
  destruct (AnalogInput_read env i w) as [[v | e] w1]; cbn [snd] in *.
  - apply IH. exact H1.
  - exact H1.
Qed.

Lemma invoke_samples (m : method) (w : World) :
  samples_in_range (service w) ->
  samples_in_range (service (invoke env m w)).
Proof.
  intros H. destruct m as [| | | N | i]; cbn [invoke].
  - intros j. rewrite enable_inputs. apply H.
  - intros j. rewrite disable_inputs. apply H.
  - destruct (enabled (service w)) eqn:He.
    + rewrite (read_enabled env w He). apply read_each_samples. exact H.
    + unfold read, bind, this, throw. rewrite He. exact H.
  - rewrite readChannel_service. exact H.
  - apply AnalogInput_read_samples. exact H.
Qed.

(** After any sequence of calls on a freshly constructed service. *)
Lemma run_samples (ms : list method) :
  forall w, samples_in_range (service w) ->
            samples_in_range (service (run env ms w)).
Proof.
  induction ms as [| m rest IH]; intros w H; [exact H |].
  rewrite run_cons. apply IH. apply invoke_samples. exact H.
Qed.

Lemma samples_of_new_service :
  forall (ms : list method) (i : slot),
    raw (input i (service new_World)) = 0 /\
    0 <= raw (input i (service (run env ms new_World))) <= 4095.
Proof.
  intros ms i. split; [destruct i; reflexivity |].
  apply run_samples. intros j. destruct j; cbn; lia.
Qed.

End Samples.

(** C2, evaluated where it fails: the converter reports -1 in its 12-bit
    two's complement format (bytes 0xFF 0xF0), as it may on a grounded
    single-ended input; after enable() and one read of the first channel
    the cached sample is 4095, outside [0, 2047]. *)
Theorem C2_cached_sample_exceeds_2047 :
  let w := run (healthy 0xFF 0xF0) [CallEnable; CallInputRead Input1]
               new_World in
  raw (input1 (service new_World)) = 0 /\
  fst (AnalogInput_read (healthy 0xFF 0xF0) Input1
         (invoke (healthy 0xFF 0xF0) CallEnable new_World)) = Ok 4095 /\
  raw (input1 (service w)) = 4095 /\
  ~ 0 <= raw (input1 (service w)) <= 2047.
Proof.
  cbv zeta. split; [reflexivity |]. split; [reflexivity |].
  split; [reflexivity |].
  change (raw (input1 (service (run (healthy 255 240)
                                  [CallEnable; CallInputRead Input1]
                                  new_World)))) with 4095.
  lia.
Qed.

(** ** The getters *)

Lemma percent_above_full_scale_checked :
  forallb (fun n => PrimFloat.ltb 100%float
                      (percent {| channel := 0; currentValue := Z.of_nat n |}))
          (seq 2048 2048) = true.
Proof. vm_compute. reflexivity. Qed.

(** C5: for a cached sample r in [0, 2047] the voltage getter returns
    (r/2047.0)*4.096*13.0 and the percent getter (r/2047.0)*100.0, computed
    in binary64; both getters, and raw, are functions of the cached sample
    alone (they take no world and return none); percent is not clamped: a
    cached sample above 2047 (up to 4095, the most the decode can produce)
    gives a percent above 100. *)
Theorem C5_voltage_and_percent :
  (forall a : AnalogInput,
     0 <= currentValue a <= 2047 ->
     voltage a = spec_voltage (currentValue a) /\
     percent a = spec_percent (currentValue a)) /\
  (forall a b : AnalogInput,
     currentValue a = currentValue b ->
     raw a = raw b /\ voltage a = voltage b /\ percent a = percent b) /\
  (forall a : AnalogInput,
     2047 < currentValue a <= 4095 ->
     PrimFloat.ltb 100%float (percent a) = true).
Proof.
  split; [| split].
  - intros a _. split; reflexivity.
  - intros a b H. unfold raw, voltage, percent. rewrite H. auto.
  - intros [ch r] Hr. cbn [currentValue] in Hr.
    pose proof percent_above_full_scale_checked as Hall.
    rewrite forallb_forall in Hall.
    specialize (Hall (Z.to_nat r)).
    rewrite Z2Nat.id in Hall by lia.
    unfold percent in *. cbn [currentValue] in *.
    apply Hall. apply in_seq. lia.
Qed.

Lemma C5_voltage_and_percent_witness :
  voltage {| channel := 0; currentValue := 2047 |} = 53.248000000000005%float /\
  percent {| channel := 0; currentValue := 1024 |} = 50.024425989252563%float /\
  voltage {| channel := 0; currentValue := 512 |}
    = voltage {| channel := 3; currentValue := 512 |} /\
  PrimFloat.ltb 100%float (percent {| channel := 0; currentValue := 4095 |})
    = true.
Proof.
  destruct C5_voltage_and_percent as (Hexact & Hpure & Hover).
  split; [| split; [| split]].
  - rewrite (proj1 (Hexact {| channel := 0; currentValue := 2047 |}
                      ltac:(simpl; lia))).
    reflexivity.
  - rewrite (proj2 (Hexact {| channel := 0; currentValue := 1024 |}
                      ltac:(simpl; lia))).
    reflexivity.
  - apply (Hpure {| channel := 0; currentValue := 512 |}
                 {| channel := 3; currentValue := 512 |}). reflexivity.
  - apply Hover. simpl. lia.
Defined.

(** ** Well-formedness is kept by every method *)

Lemma well_formed_with_sample (i : slot) (v : Z) (s : AnalogInputService) :
  well_formed s ->
  well_formed (with_input i (with_currentValue v (input i s)) s).
Proof.
  intros (Hch & Hon & Hoff).
  destruct (with_input_fields i (with_currentValue v (input i s)) s)
    as [He Hb].
  split; [| split].
  - apply with_input_channels. exact Hch.
  - rewrite He, Hb. exact Hon.
  - rewrite He, Hb. exact Hoff.
Qed.

Section WellFormed.

Variable env : Collaborators.

Lemma enable_well_formed (w : World) :
  well_formed (service w) -> well_formed (service (snd (enable env w))).
Proof.
  intros Hwf. destruct (enabled (service w)) eqn:He.
  - rewrite (enable_when_enabled env w He). exact Hwf.
  - destruct (i2c_openSync env (trace w) 1) as [bus | e] eqn:Ho.
    + destruct (enable_open_succeeds env w bus He Ho) as [-> _].
      destruct Hwf as (Hch & _ & _). split; [| split].
      * intros i. specialize (Hch i). destruct i; exact Hch.
      * intros _. exists bus. reflexivity.
      * discriminate.
    + rewrite (enable_open_fails env w e He Ho). exact Hwf.
Qed.

Lemma disable_well_formed (w : World) :
  well_formed (service w) -> well_formed (service (snd (disable env w))).
Proof.
  intros Hwf. destruct (enabled (service w)) eqn:He.
  - destruct Hwf as (Hch & Hon & Hoff).
    destruct (Hon He) as [bus Hb].
    destruct (bus_closeSync env (trace w) bus) as [[] | e] eqn:Hc.
    + destruct (disable_close_succeeds env w bus He Hb Hc) as (_ & -> & _).
      split; [| split].
      * intros i. specialize (Hch i). destruct i; exact Hch.
      * discriminate.
      * reflexivity.
    + rewrite (disable_close_fails env w bus e He Hb Hc).
      split; [exact Hch | split; assumption].
  - rewrite (disable_when_disabled env w He). exact Hwf.
Qed.

Lemma AnalogInput_read_well_formed (w : World) (i : slot) :
  well_formed (service w) ->
  well_formed (service (snd (AnalogInput_read env i w))).
Proof.
  intros Hwf. rewrite AnalogInput_read_unfold.
  pose proof (readChannel_service env w (channel (input i (service w)))) as Hs.
  destruct (readChannel env _ w) as [[v | e] w']; cbn [snd service] in *;
    rewrite Hs.
  - apply well_formed_with_sample. exact Hwf.
  - exact Hwf.
Qed.

Lemma read_each_well_formed (slots : list slot) :
  forall w, well_formed (service w) ->
            well_formed (service (snd (read_each env slots w))).
Proof.
  induction slots as [| i rest IH]; intros w H; [exact H |].
  cbn [read_each]. unfold bind.
  pose proof (AnalogInput_read_well_formed w i H) as H1.
  destruct (AnalogInput_read env i w) as [[v | e] w1]; cbn [snd] in *.
  - apply IH. exact H1.
  - exact H1.
Qed.

Lemma invoke_well_formed (m : method) (w : World) :
  well_formed (service w) -> well_formed (service (invoke env m w)).
Proof.
  intros H. destruct m as [| | | N | i]; cbn [invoke].
  - apply enable_well_formed. exact H.
  - apply disable_well_formed. exact H.
  - destruct (enabled (service w)) eqn:He.
    + rewrite (read_enabled env w He). apply read_each_well_formed. exact H.
    + unfold read, bind, this, throw. rewrite He. exact H.
  - rewrite readChannel_service. exact H.
  - apply AnalogInput_read_well_formed. exact H.
Qed.

(** Every world a caller can bring a new service to is well formed. *)
Lemma run_well_formed (ms : list method) :
  forall w, well_formed (service w) -> well_formed (service (run env ms w)).
Proof.
  induction ms as [| m rest IH]; intros w H; [exact H |].
  rewrite run_cons. apply IH. apply invoke_well_formed. exact H.
Qed.

Lemma reachable_well_formed (ms : list method) :
  well_formed (service (run env ms new_World)).
Proof. apply run_well_formed. exact well_formed_new. Qed.

End WellFormed.

(** * Further properties of the driver *)

(** ** What holds after every sequence of calls *)

(** X1: after any sequence of method calls on a newly constructed service,
    whatever the collaborators answer, the service is enabled exactly when
    it holds a bus handle, and the four channel objects still carry the
    channel numbers 0, 1, 2, 3. *)
Theorem X1_enabled_iff_handle_held :
  forall (env : Collaborators) (ms : list method),
    let s := service (run env ms new_World) in
    (enabled s = true <-> exists bus, i2cBus s = Some bus) /\
    channel (input1 s) = 0 /\ channel (input2 s) = 1 /\
    channel (input3 s) = 2 /\ channel (input4 s) = 3.
Proof.
  intros env ms s.
  destruct (reachable_well_formed env ms) as (Hch & Hon & Hoff). fold s in Hch, Hon, Hoff.
  split; [split |].
  - exact Hon.
  - intros [bus Hb]. destruct (enabled s); [reflexivity |].
    rewrite Hoff in Hb by reflexivity. discriminate.
  - exact (conj (Hch Input1) (conj (Hch Input2) (conj (Hch Input3) (Hch Input4)))).
Qed.

(** X2: after any sequence of method calls on a newly constructed service,
    whatever the transport stores into the buffer, every cached sample is
    an integer between 0 and 4095. *)
Theorem X2_cached_sample_is_12_bit :
  forall (env : Collaborators) (ms : list method) (i : slot),
    0 <= raw (input i (service (run env ms new_World))) <= 4095.
Proof.
  intros env ms i. apply run_samples. intros j. destruct j; cbn; lia.
Qed.

(** ** The successful paths of enable and disable *)

(** Discard the branches an assumption of success rules out. *)
Ltac no_throw :=
  match goal with
  | H : to_raised (Throw _) = None |- _ => discriminate H
  end.

(** X3: when the bus open and the four light calls all return, enable() on
    a disabled service returns normally, makes exactly these five calls in
    this order (open bus 1, on() of the three analog lights, one update())
    and leaves the service enabled with the handle the open returned. *)
Theorem X3_enable_success_calls :
  forall (env : Collaborators) (w : World) (bus : handle),
    enabled (service w) = false ->
    i2c_openSync env (trace w) 1 = Ok bus ->
    no_failure env (trace w ++ [OpenSync 1])
      [LightOn analogInput1; LightOn analogInput2; LightOn analogInput3;
       LightUpdate] ->
    enable env w =
      (Ok tt,
       {| service := with_enabled true (with_i2cBus (Some bus) (service w));
          trace := trace w ++ [OpenSync 1; LightOn analogInput1;
                               LightOn analogInput2; LightOn analogInput3;
                               LightUpdate] |}).
Proof.
  intros env w bus He Ho (H1 & H2 & H3 & H4 & _).
  cbn [raised] in H1, H2, H3, H4.
  run_body. rewrite He, Ho. fields.
  split_answers; try no_throw.
  flatten_traces. reflexivity.
Qed.

Lemma X3_enable_success_calls_witness :
  enable (healthy 0 0) new_World =
    (Ok tt,
     {| service := service enabled_World;
        trace := [OpenSync 1; LightOn analogInput1; LightOn analogInput2;
                  LightOn analogInput3; LightUpdate] |}).
Proof.
  apply (X3_enable_success_calls (healthy 0 0) new_World 7%nat);
    [reflexivity | reflexivity | cbn; auto].
Defined.

(** X4: when the bus close and the four light calls all return, disable()
    on an enabled service returns normally, makes exactly these five calls
    in this order (close of the handle held, off() of the three analog
    lights, one update()) and leaves the service disabled without a
    handle. *)
Theorem X4_disable_success_calls :
  forall (env : Collaborators) (w : World) (bus : handle),
    enabled (service w) = true ->
    i2cBus (service w) = Some bus ->
    no_failure env (trace w)
      [CloseSync bus; LightOff analogInput1; LightOff analogInput2;
       LightOff analogInput3; LightUpdate] ->
    disable env w =
      (Ok tt,
       {| service := with_enabled false (with_i2cBus None (service w));
          trace := trace w ++ [CloseSync bus; LightOff analogInput1;
                               LightOff analogInput2; LightOff analogInput3;
                               LightUpdate] |}).
Proof.
  intros env w bus He Hb (H0 & H1 & H2 & H3 & H4 & _).
  cbn [raised] in H0, H1, H2, H3, H4.
  run_body. rewrite He, Hb. fields.
  split_answers; try no_throw.
  flatten_traces. reflexivity.
Qed.

Lemma X4_disable_success_calls_witness :
  disable (healthy 0 0) enabled_World =
    (Ok tt,
     {| service := new_AnalogInputService;
        trace := [CloseSync 7%nat; LightOff analogInput1;
                  LightOff analogInput2; LightOff analogInput3;
                  LightUpdate] |}).
Proof.
  apply (X4_disable_success_calls (healthy 0 0) enabled_World 7%nat);
    [reflexivity | reflexivity | cbn; auto 6].
Defined.

(** ** Reading: rejections, failures and what is left untouched *)

(** X5: on a disabled service, readChannel throws the "not enabled" error
    for every channel argument, valid or not (the state check comes before
    the channel validation), and so does the read() of every channel
    object; neither makes a call or changes anything. *)
Theorem X5_reads_rejected_when_disabled :
  forall (env : Collaborators) (w : World),
    enabled (service w) = false ->
    (forall N : Z,
       readChannel env N w =
         (Throw (Error
                   "AnalogInputService is not enabled. Call enable() first."),
          w)) /\
    (forall i : slot,
       AnalogInput_read env i w =
         (Throw (Error
                   "AnalogInputService is not enabled. Call enable() first."),
          w)).
Proof.
  intros env w He. split.
  - intros N. apply readChannel_not_enabled. left. exact He.
  - intros i. rewrite AnalogInput_read_unfold.
    rewrite readChannel_not_enabled by (left; exact He). reflexivity.
Qed.

Lemma X5_reads_rejected_when_disabled_witness :
  readChannel (healthy 0 0) 9 new_World =
    (Throw (Error "AnalogInputService is not enabled. Call enable() first."),
     new_World) /\
  AnalogInput_read (healthy 0 0) Input3 new_World =
    (Throw (Error "AnalogInputService is not enabled. Call enable() first."),
     new_World).
Proof.
  destruct (X5_reads_rejected_when_disabled (healthy 0 0) new_World eq_refl)
    as [Hch Hin].
  split; [apply Hch | apply Hin].
Defined.

(** X6: on an enabled service and a valid channel, an error thrown by the
    configuration write is thrown by readChannel as it is, and neither the
    wait nor the read takes place; an error thrown by the conversion read
    is thrown as it is after the write, the wait and the read.  There is no
    retry and no further call in either case. *)
Theorem X6_transport_error_propagates :
  forall (env : Collaborators) (w : World) (bus : handle) (N : Z) (e : exn),
    enabled (service w) = true ->
    i2cBus (service w) = Some bus ->
    0 <= N <= 3 ->
    (write_answer env (trace w) bus N = Throw e ->
     readChannel env N w = (Throw e, extend w [write_config bus N])) /\
    (forall n : Z,
       write_answer env (trace w) bus N = Ok n ->
       read_answer env (trace w) bus N = Throw e ->
       readChannel env N w = (Throw e, extend w (conversion bus N))).
Proof.
  intros env w bus N e He Hb HN. split.
  - intros Hw. rewrite (readChannel_run env w bus N He Hb HN), Hw.
    reflexivity.
  - intros n Hw Hr. rewrite (readChannel_run env w bus N He Hb HN), Hw, Hr.
    reflexivity.
Qed.

Lemma X6_transport_error_propagates_witness :
  readChannel write_fails 1 enabled_World =
    (Throw (Error "ENXIO"),
     {| service := service enabled_World;
        trace := [WriteI2cBlockSync 7%nat 0x48 0x01 2 [0xD3; 0x83]] |}) /\
  readChannel read_fails 1 enabled_World =
    (Throw (Error "EREMOTEIO"),
     {| service := service enabled_World;
        trace := [WriteI2cBlockSync 7%nat 0x48 0x01 2 [0xD3; 0x83];
                  BusyWait 2;
                  ReadI2cBlockSync 7%nat 0x48 0x00 2] |}).
Proof.
  split.
  - apply (proj1 (X6_transport_error_propagates write_fails enabled_World
                    7%nat 1 (Error "ENXIO") eq_refl eq_refl
                    ltac:(lia))).
    reflexivity.
  - apply (proj2 (X6_transport_error_propagates read_fails enabled_World
                    7%nat 1 (Error "EREMOTEIO") eq_refl eq_refl
                    ltac:(lia)) 2); reflexivity.
Defined.

Lemma read_each_wiring (env : Collaborators) (slots : list slot) :
  forall w, same_wiring (service w) (service (snd (read_each env slots w))).
Proof.
  induction slots as [| i rest IH]; intros w.
  - repeat split.
  - cbn [read_each]. unfold bind. rewrite AnalogInput_read_unfold.
    pose proof (readChannel_service env w (channel (input i (service w)))) as Hs.
    destruct (readChannel env _ w) as [[v | e] w']; cbn [snd] in *.
    + rewrite Hs.
      set (w1 := {| service := _; trace := trace w' |}).
      destruct (IH w1) as (He & Hb & Hc).
      destruct (with_input_fields i (with_currentValue v (input i (service w)))
                  (service w)) as [He' Hb'].
      split; [| split].
      * rewrite He. exact He'.
      * rewrite Hb. exact Hb'.
      * intros j. rewrite Hc. subst w1. cbn [service].
        destruct i, j; reflexivity.
    + rewrite Hs. repeat split.
Qed.

(** X7: reading never touches the lifecycle of the service.  readChannel
    leaves the whole service object as it was, whether it returns or
    throws.  The read() of a channel object leaves the enabled flag, the
    bus handle, every channel number and every other channel object as
    they were.  The read() of the service leaves the enabled flag, the bus
    handle and every channel number as they were: a failed read neither
    disables the service nor drops the handle. *)
Theorem X7_reads_keep_lifecycle_fields :
  forall (env : Collaborators) (w : World),
    (forall N : Z, service (snd (readChannel env N w)) = service w) /\
    (forall i : slot,
       same_wiring (service w) (service (snd (AnalogInput_read env i w))) /\
       forall j, j <> i ->
         input j (service (snd (AnalogInput_read env i w)))
         = input j (service w)) /\
    same_wiring (service w) (service (snd (read env w))).
Proof.
  intros env w. split; [| split].
  - intros N. apply readChannel_service.
  - intros i. split.
    + pose proof (read_each_wiring env [i] w) as H.
      cbn [read_each] in H. unfold bind, ret in H.
      destruct (AnalogInput_read env i w) as [[v | e] w']; exact H.
    + intros j Hj.
      destruct (AnalogInput_read_inputs env w i j) as [H | [H _]];
        [exact H | congruence].
  - destruct (enabled (service w)) eqn:He.
    + rewrite (read_enabled env w He). apply read_each_wiring.
    + unfold read, bind, this, throw. rewrite He. repeat split.
Qed.

(** ** The decode on whatever the transport stores *)

Lemma set_out_of_range (buf : JS.Buffer) (i : nat) (v : Z) :
  (List.length buf <= i)%nat -> JS.set buf i v = buf.
Proof.
  revert i. induction buf as [| b rest IH]; intros i Hi; [reflexivity |].
  destruct i as [| j]; cbn in Hi; [lia |].
  cbn [JS.set]. rewrite IH by lia. reflexivity.
Qed.

Lemma fill_from_out_of_range (vs : list Z) (buf : JS.Buffer) (i : nat) :
  (List.length buf <= i)%nat -> JS.fill_from buf i vs = buf.
Proof.
  revert i. induction vs as [| v rest IH]; intros i Hi; [reflexivity |].
  cbn [JS.fill_from]. rewrite set_out_of_range by exact Hi.
  apply IH. lia.
Qed.

Lemma fill_two_byte_buffer (stored : list Z) :
  JS.fill_from (JS.alloc 2) 0 stored =
    [nth 0 stored 0 mod 256; nth 1 stored 0 mod 256].
Proof.
  destruct stored as [| a [| b rest]]; try reflexivity.
  cbn [JS.fill_from JS.alloc repeat JS.set nth].
  rewrite fill_from_out_of_range by (cbn; lia). reflexivity.
Qed.

(** X8: whatever values the transport stores into the two-byte buffer,
    readChannel returns ((b0 * 256 + b1) >> 4) where b0 and b1 are the
    first two stored values taken modulo 256, a value missing because the
    transport stored fewer than two counting as 0 (the buffer is allocated
    zeroed) and any value after the second being dropped; the result is
    between 0 and 4095. *)
Theorem X8_decode_of_any_stored_values :
  forall (env : Collaborators) (w : World) (bus : handle) (N n : Z)
         (stored : list Z),
    enabled (service w) = true ->
    i2cBus (service w) = Some bus ->
    0 <= N <= 3 ->
    write_answer env (trace w) bus N = Ok n ->
    read_answer env (trace w) bus N = Ok stored ->
    let b0 := nth 0 stored 0 mod 256 in
    let b1 := nth 1 stored 0 mod 256 in
    fst (readChannel env N w) = Ok (Z.shiftr (b0 * 256 + b1) 4) /\
    0 <= Z.shiftr (b0 * 256 + b1) 4 <= 4095.
Proof.
  intros env w bus N n stored He Hb HN Hw Hr b0 b1.
  assert (H0 : is_byte b0) by (apply to_uint8_byte).
  assert (H1 : is_byte b1) by (apply to_uint8_byte).
  rewrite <- (decode_bytes b0 b1 H0 H1).
  split; [| apply decode_bytes_range; assumption].
  rewrite (readChannel_run env w bus N He Hb HN), Hw, Hr.
  cbn [fst]. rewrite fill_two_byte_buffer. reflexivity.
Qed.

Lemma X8_decode_of_any_stored_values_witness :
  fst (readChannel short_read 0 enabled_World) = Ok 288 /\
  fst (readChannel long_read 0 enabled_World) = Ok 2047.
Proof.
  split.
  - apply (X8_decode_of_any_stored_values short_read enabled_World 7%nat
             0 2 [0x12]); try reflexivity. lia.
  - apply (X8_decode_of_any_stored_values long_read enabled_World 7%nat
             0 2 [0x17F; 0xF0; 0xAA]); try reflexivity. lia.
Defined.

(** ** Cycles of enable and disable *)

(** X9: enable() and disable() never touch a channel object: through any
    sequence of enable() and disable() calls, with any collaborators and
    whether the calls return or throw, every channel keeps its channel
    number and its cached sample. *)
Theorem X9_lifecycle_keeps_channel_objects :
  forall (env : Collaborators) (ms : list method) (w : World) (i : slot),
    Forall is_lifecycle_call ms ->
    input i (service (run env ms w)) = input i (service w).
Proof.
  intros env ms. induction ms as [| m rest IH]; intros w i H; [reflexivity |].
  inversion H as [| ? ? Hm Hrest]; subst.
  rewrite run_cons, IH by exact Hrest.
  destruct Hm as [-> | ->]; cbn [invoke].
  - apply enable_inputs.
  - apply disable_inputs.
Qed.

Lemma X9_lifecycle_keeps_channel_objects_witness :
  input Input2
    (service (run light_fails [CallDisable; CallEnable; CallDisable]
                sampled_World))
  = {| channel := 1; currentValue := 1024 |}.
Proof.
  apply (X9_lifecycle_keeps_channel_objects light_fails
           [CallDisable; CallEnable; CallDisable] sampled_World Input2).
  constructor; [right; reflexivity |].
  constructor; [left; reflexivity |].
  constructor; [right; reflexivity | constructor].
Defined.

(** X10: enable() followed by disable() brings a disabled service back to
    exactly the service it was (no handle, not enabled, same channel
    objects) as soon as the bus open and the bus close return, whatever
    the lights do in between; the disable() returns normally. *)
Theorem X10_enable_then_disable_restores :
  forall (env : Collaborators) (w : World) (bus : handle),
    enabled (service w) = false ->
    i2cBus (service w) = None ->
    i2c_openSync env (trace w) 1 = Ok bus ->
    bus_closeSync env (trace (snd (enable env w))) bus = Ok tt ->
    fst (disable env (snd (enable env w))) = Ok tt /\
    service (snd (disable env (snd (enable env w)))) = service w.
Proof.
  intros env w bus He Hb Ho Hc.
  destruct (enable_open_succeeds env w bus He Ho) as [Hsvc _].
  destruct (disable_close_succeeds env (snd (enable env w)) bus)
    as (Hret & Hsvc' & _).
  - rewrite Hsvc. reflexivity.
  - rewrite Hsvc. reflexivity.
  - exact Hc.
  - split; [exact Hret |].
    rewrite Hsvc', Hsvc. destruct (service w) as [a b c d h en].
    cbn in *. subst. reflexivity.
Qed.

Lemma X10_enable_then_disable_restores_witness :
  service (snd (disable light_fails (snd (enable light_fails new_World))))
  = new_AnalogInputService.
Proof.
  apply (X10_enable_then_disable_restores light_fails new_World 7%nat);
    reflexivity.
Defined.

(** ** The bus handle is used only while it is held *)

Lemma track_app (env : Collaborators) (evs1 evs2 : list event) :
  forall (h : list event) (cur : option handle),
    track env h cur (evs1 ++ evs2) =
      match track env h cur evs1 with
      | Some c => track env (h ++ evs1) c evs2
      | None => None
      end.
Proof.
  induction evs1 as [| ev rest IH]; intros h cur.
  - cbn. rewrite app_nil_r. reflexivity.
  - assert (Hh : forall c, track env (h ++ [ev]) c (rest ++ evs2) =
                           match track env (h ++ [ev]) c rest with
                           | Some c' => track env (h ++ ev :: rest) c' evs2
                           | None => None
                           end).
    { intros c. rewrite IH, <- app_assoc. reflexivity. }
    cbn [app track].
    destruct ev; try apply Hh.
    + destruct cur; [reflexivity | apply Hh].
    + destruct (holds cur bus); [apply Hh | reflexivity].
    + destruct (holds cur bus); [apply Hh | reflexivity].
    + destruct (holds cur bus); [apply Hh | reflexivity].
Qed.

Lemma follows_refl (env : Collaborators) (w : World) : follows env w w.
Proof. exists []. rewrite app_nil_r. split; reflexivity. Qed.

Lemma follows_trans (env : Collaborators) (w1 w2 w3 : World) :
  follows env w1 w2 -> follows env w2 w3 -> follows env w1 w3.
Proof.
  intros (n1 & Ht1 & Hk1) (n2 & Ht2 & Hk2).
  exists (n1 ++ n2). split.
  - rewrite Ht2, Ht1, app_assoc. reflexivity.
  - rewrite track_app, Hk1, <- Ht1. exact Hk2.
Qed.

(** A step that changes the trace and the cached samples only. *)
Lemma follows_same_trace (env : Collaborators) (w w' : World) :
  trace w' = trace w -> i2cBus (service w') = i2cBus (service w) ->
  follows env w w'.
Proof.
  intros Ht Hb. exists []. rewrite app_nil_r, Hb. split; [exact Ht | reflexivity].
Qed.

Ltac replay :=
  cbn [track holds];
  repeat match goal with
         | H : ?a = _ |- context [match ?a with Ok _ => _ | Throw _ => _ end] =>
             rewrite H
         | |- context [Nat.eqb ?b ?b] => rewrite Nat.eqb_refl
         end;
  cbn [track holds].

Section Discipline.

Variable env : Collaborators.

Lemma enable_follows (w : World) :
  well_formed (service w) -> follows env w (snd (enable env w)).
Proof.
  intros (_ & _ & Hoff). destruct (enabled (service w)) eqn:He.
  - rewrite (enable_when_enabled env w He). apply follows_refl.
  - specialize (Hoff eq_refl). unfold follows. rewrite Hoff.
    run_body. rewrite He. fields.
    destruct (i2c_openSync env (trace w) 1) as [bus | e] eqn:Ho; fields.
    + split_answers;
        (eexists; split; [flatten_traces; reflexivity | replay; reflexivity]).
    + eexists; split; [flatten_traces; reflexivity |].
      replay. symmetry. f_equal. exact Hoff.
Qed.

Lemma disable_follows (w : World) :
  well_formed (service w) -> follows env w (snd (disable env w)).
Proof.
  intros (_ & Hon & _). destruct (enabled (service w)) eqn:He.
  - destruct (Hon eq_refl) as [bus Hb]. unfold follows. rewrite Hb.
    run_body. rewrite He, Hb. fields.
    destruct (bus_closeSync env (trace w) bus) as [[] | e] eqn:Hc; fields.
    + split_answers;
        (eexists; split; [flatten_traces; reflexivity | replay; reflexivity]).
    + eexists; split; [flatten_traces; reflexivity |].
      replay. symmetry. f_equal. exact Hb.
  - rewrite (disable_when_disabled env w He). apply follows_refl.
Qed.

Lemma readChannel_follows (w : World) (N : Z) :
  follows env w (snd (readChannel env N w)).
Proof.
  destruct (enabled (service w)) eqn:He;
    [| rewrite readChannel_not_enabled by (left; exact He);
       apply follows_refl].
  destruct (i2cBus (service w)) as [bus |] eqn:Hb;
    [| rewrite readChannel_not_enabled by (right; exact Hb);
       apply follows_refl].
  destruct (Z_le_dec 0 N) as [H0 |];
    [| rewrite (readChannel_invalid env w bus N He Hb) by lia;
       apply follows_refl].
  destruct (Z_le_dec N 3) as [H3 |];
    [| rewrite (readChannel_invalid env w bus N He Hb) by lia;
       apply follows_refl].
  rewrite (readChannel_run env w bus N He Hb (conj H0 H3)).
  unfold follows. rewrite Hb.
  destruct (write_answer env (trace w) bus N);
    [destruct (read_answer env (trace w) bus N) |];
    cbn [snd extend service trace]; rewrite Hb;
    eexists; (split; [reflexivity |]);
    unfold conversion, write_config, read_conversion; replay; reflexivity.
Qed.

Lemma AnalogInput_read_follows (w : World) (i : slot) :
  follows env w (snd (AnalogInput_read env i w)).
Proof.
  rewrite AnalogInput_read_unfold.
  pose proof (readChannel_follows w (channel (input i (service w)))) as Hf.
  destruct (readChannel env _ w) as [[v | e] w']; cbn [snd] in *;
    [| exact Hf].
  apply (follows_trans env w w' _ Hf).
  apply follows_same_trace; [reflexivity |].
  cbn [service]. apply with_input_fields.
Qed.

Lemma read_each_follows (slots : list slot) :
  forall w, follows env w (snd (read_each env slots w)).
Proof.
  induction slots as [| i rest IH]; intros w; [apply follows_refl |].
  cbn [read_each]. unfold bind.
  pose proof (AnalogInput_read_follows w i) as Hf.
  destruct (AnalogInput_read env i w) as [[v | e] w1]; cbn [snd] in *.
  - exact (follows_trans env w w1 _ Hf (IH w1)).
  - exact Hf.
Qed.

Lemma invoke_follows (m : method) (w : World) :
  well_formed (service w) -> follows env w (invoke env m w).
Proof.
  intros Hwf. destruct m as [| | | N | i]; cbn [invoke].
  - apply enable_follows. exact Hwf.
  - apply disable_follows. exact Hwf.
  - destruct (enabled (service w)) eqn:He.
    + rewrite (read_enabled env w He). apply read_each_follows.
    + unfold read, bind, this, throw. rewrite He. apply follows_refl.
  - apply readChannel_follows.
  - apply AnalogInput_read_follows.
Qed.

Lemma run_follows (ms : list method) :
  forall w, well_formed (service w) -> follows env w (run env ms w).
Proof.
  induction ms as [| m rest IH]; intros w Hwf; [apply follows_refl |].
  rewrite run_cons.
  apply (follows_trans env w (invoke env m w)).
  - apply invoke_follows. exact Hwf.
  - apply IH. apply invoke_well_formed. exact Hwf.
Qed.

End Discipline.

(** X11: the calls made to the bus respect the handle.  Replaying the
    whole trace left by any sequence of method calls on a new service, with
    any collaborators: the bus is opened only while no handle is held; a
    close, a configuration write or a conversion read is made only through
    the handle returned by the latest open that has not been closed since
    (never before an open, never after a close that returned, never
    through another handle); and the handle the replay ends with is the
    one the service holds. *)
Theorem X11_bus_used_only_through_held_handle :
  forall (env : Collaborators) (ms : list method),
    track env [] None (trace (run env ms new_World))
    = Some (i2cBus (service (run env ms new_World))).
Proof.
  intros env ms.
  destruct (run_follows env ms new_World well_formed_new) as (new & Ht & Hk).
  cbn [trace new_World app] in Ht. rewrite Ht. exact Hk.
Qed.

(** [track] refuses a transfer made without a handle, a second open while
    a handle is held, and a transfer after a close that returned. *)
Example track_refuses_misuse :
  track (healthy 0 0) [] None [ReadI2cBlockSync 7%nat 0x48 0x00 2] = None /\
  track (healthy 0 0) [] None [OpenSync 1; OpenSync 1] = None /\
  track (healthy 0 0) [] None
    [OpenSync 1; CloseSync 7%nat; ReadI2cBlockSync 7%nat 0x48 0x00 2] = None /\
  track (healthy 0 0) [] None
    [OpenSync 1; ReadI2cBlockSync 7%nat 0x48 0x00 2; CloseSync 7%nat]
  = Some None.
Proof. repeat split; reflexivity. Qed.

(** ** What read() leaves in the channel objects *)


Section ReadEffect.

Variable env : Collaborators.


End ReadEffect.




(** ** The getters over the whole range of samples *)

Lemma strictly_increasing_nth (l : list float) (d : float) :
  strictly_increasing l = true ->
  forall i j : nat,
    (i < j < List.length l)%nat ->
    PrimFloat.ltb (nth i l d) (nth j l d) = true.
Proof.
  induction l as [| x rest IH]; intros H i j Hij; [cbn in Hij; lia |].
  cbn [strictly_increasing] in H. apply andb_prop in H as [Hx Hrest].
  destruct j as [| j']; [lia |]. cbn [List.length] in Hij.
  destruct i as [| i']; cbn [nth].
  - rewrite forallb_forall in Hx. apply Hx. apply nth_In. lia.
  - apply IH; [exact Hrest | lia].
Qed.

Lemma getters_of_sample (a : AnalogInput) :
  voltage a = voltage (sample (currentValue a)) /\
  percent a = percent (sample (currentValue a)).
Proof. split; reflexivity. Qed.

Lemma voltages_checked :
  strictly_increasing
    (map (fun n => voltage (sample (Z.of_nat n))) (seq 0 4096)) = true.
Proof. vm_compute. reflexivity. Qed.

Lemma percents_checked :
  strictly_increasing
    (map (fun n => percent (sample (Z.of_nat n))) (seq 0 4096)) = true.
Proof. vm_compute. reflexivity. Qed.

Lemma increasing_on_samples (f : AnalogInput -> float) :
  strictly_increasing
    (map (fun n => f (sample (Z.of_nat n))) (seq 0 4096)) = true ->
  forall r1 r2 : Z,
    0 <= r1 -> r1 < r2 -> r2 <= 4095 ->
    PrimFloat.ltb (f (sample r1)) (f (sample r2)) = true.
Proof.
  intros H r1 r2 H0 H12 H2.
  pose proof (strictly_increasing_nth _ (f (sample (Z.of_nat 0))) H
                (Z.to_nat r1) (Z.to_nat r2)) as Hn.
  rewrite length_map, length_seq in Hn.
  rewrite !(map_nth (fun n => f (sample (Z.of_nat n)))) in Hn.
  rewrite !seq_nth in Hn by lia.
  cbn [Nat.add] in Hn. rewrite !Z2Nat.id in Hn by lia.
  apply Hn. lia.
Qed.

(** X13: over the samples the decode can produce (0 to 4095) both getters
    are strictly increasing in the cached sample, in binary64 as computed:
    a larger raw value always gives a strictly larger voltage and a
    strictly larger percent, so distinct samples are never reported as the
    same voltage or percent. *)
Theorem X13_getters_strictly_increasing :
  forall a b : AnalogInput,
    0 <= currentValue a ->
    currentValue a < currentValue b ->
    currentValue b <= 4095 ->
    PrimFloat.ltb (voltage a) (voltage b) = true /\
    PrimFloat.ltb (percent a) (percent b) = true.
Proof.
  intros a b H0 Hab Hb.
  destruct (getters_of_sample a) as [-> ->].
  destruct (getters_of_sample b) as [-> ->].
  split.
  - apply (increasing_on_samples voltage voltages_checked); assumption.
  - apply (increasing_on_samples percent percents_checked); assumption.
Qed.

Lemma X13_getters_strictly_increasing_witness :
  PrimFloat.ltb (voltage {| channel := 2; currentValue := 1000 |})
                (voltage {| channel := 1; currentValue := 1001 |}) = true /\
  PrimFloat.ltb (percent {| channel := 2; currentValue := 1000 |})
                (percent {| channel := 1; currentValue := 1001 |}) = true.
Proof.
  apply (X13_getters_strictly_increasing
           {| channel := 2; currentValue := 1000 |}
           {| channel := 1; currentValue := 1001 |}); cbn; lia.
Defined.

Lemma nominal_range_checked :
  forallb (fun n =>
             let a := sample (Z.of_nat n) in
             PrimFloat.leb 0%float (voltage a)
             && PrimFloat.leb (voltage a) 53.248000000000005%float
             && PrimFloat.leb 0%float (percent a)
             && PrimFloat.leb (percent a) 100%float)
          (seq 0 2048) = true.
Proof. vm_compute. reflexivity. Qed.

(** X14: for a cached sample in the nominal range 0 to 2047, percent lies
    between 0 and 100 and voltage between 0 and 53.248000000000005 volts
    (4.096 * 13 as rounded in binary64); both ends are reached, at samples
    0 and 2047. *)
Theorem X14_getters_nominal_range :
  (forall a : AnalogInput,
     0 <= currentValue a <= 2047 ->
     PrimFloat.leb 0%float (voltage a) = true /\
     PrimFloat.leb (voltage a) 53.248000000000005%float = true /\
     PrimFloat.leb 0%float (percent a) = true /\
     PrimFloat.leb (percent a) 100%float = true) /\
  voltage (sample 0) = 0%float /\
  percent (sample 0) = 0%float /\
  voltage (sample 2047) = 53.248000000000005%float /\
  percent (sample 2047) = 100%float.
Proof.
  split; [| repeat split; reflexivity].
  intros a Ha.
  destruct (getters_of_sample a) as [-> ->].
  pose proof nominal_range_checked as Hall.
  rewrite forallb_forall in Hall.
  specialize (Hall (Z.to_nat (currentValue a))).
  cbv zeta in Hall. rewrite Z2Nat.id in Hall by lia.
  assert (Hin : In (Z.to_nat (currentValue a)) (seq 0 2048))
    by (apply in_seq; lia).
  apply Hall in Hin.
  apply andb_prop in Hin as [Hin H4].
  apply andb_prop in Hin as [Hin H3].
  apply andb_prop in Hin as [H1 H2].
  auto.
Qed.

Lemma X14_getters_nominal_range_witness :
  PrimFloat.leb (voltage {| channel := 3; currentValue := 1024 |})
                53.248000000000005%float = true /\
  PrimFloat.leb (percent {| channel := 3; currentValue := 1024 |})
                100%float = true.
Proof.
  destruct (proj1 X14_getters_nominal_range
              {| channel := 3; currentValue := 1024 |})
    as (_ & Hv & _ & Hp); [cbn; lia |].
  split; [exact Hv | exact Hp].
Defined.

(** ** What goes on the wire *)

Lemma write_config_wire_ok (bus : handle) (N : Z) :
  0 <= N <= 3 -> wire_ok (write_config bus N).
Proof.
  intros HN. cbn. repeat split. exists N. split; [exact HN |].
  destruct (valid_channel_cases N HN) as [-> | [-> | [-> | ->]]];
    reflexivity.
Qed.

Ltac wire_events :=
  repeat first [apply Forall_nil | apply Forall_cons];
  first [assumption | cbn; auto].

Ltac wire_step :=
  repeat (apply Forall_app; split); try assumption; wire_events.

Section Wire.

Variable env : Collaborators.

Lemma enable_wire (w : World) :
  Forall wire_ok (trace w) -> Forall wire_ok (trace (snd (enable env w))).
Proof.
  intros H. run_body. destruct (enabled (service w)); fields; [exact H |].
  split_answers; wire_step.
Qed.

Lemma disable_wire (w : World) :
  Forall wire_ok (trace w) -> Forall wire_ok (trace (snd (disable env w))).
Proof.
  intros H. run_body. destruct (enabled (service w)); fields; [| exact H].
  destruct (i2cBus (service w)); fields; split_answers; wire_step.
Qed.

Lemma readChannel_wire (w : World) (N : Z) :
  Forall wire_ok (trace w) ->
  Forall wire_ok (trace (snd (readChannel env N w))).
Proof.
  intros H.
  destruct (enabled (service w)) eqn:He;
    [| rewrite readChannel_not_enabled by (left; exact He); exact H].
  destruct (i2cBus (service w)) as [bus |] eqn:Hb;
    [| rewrite readChannel_not_enabled by (right; exact Hb); exact H].
  destruct (Z_le_dec 0 N) as [H0 |];
    [| rewrite (readChannel_invalid env w bus N He Hb) by lia; exact H].
  destruct (Z_le_dec N 3) as [H3 |];
    [| rewrite (readChannel_invalid env w bus N He Hb) by lia; exact H].
  rewrite (readChannel_run env w bus N He Hb (conj H0 H3)).
  pose proof (write_config_wire_ok bus N (conj H0 H3)) as Hw.
  destruct (write_answer env (trace w) bus N);
    [destruct (read_answer env (trace w) bus N) |];
    cbn [snd extend trace]; apply Forall_app; split; try exact H;
    unfold conversion; wire_events.
Qed.

Lemma AnalogInput_read_wire (w : World) (i : slot) :
  Forall wire_ok (trace w) ->
  Forall wire_ok (trace (snd (AnalogInput_read env i w))).
Proof.
  intros H. rewrite AnalogInput_read_unfold.
  pose proof (readChannel_wire w (channel (input i (service w))) H) as Hr.
  destruct (readChannel env _ w) as [[v | e] w']; exact Hr.
Qed.

Lemma read_each_wire (slots : list slot) :
  forall w, Forall wire_ok (trace w) ->
            Forall wire_ok (trace (snd (read_each env slots w))).
Proof.
  induction slots as [| i rest IH]; intros w H; [exact H |].
  cbn [read_each]. unfold bind.
  pose proof (AnalogInput_read_wire w i H) as H1.
  destruct (AnalogInput_read env i w) as [[v | e] w1]; cbn [snd] in *.
  - apply IH. exact H1.
  - exact H1.
Qed.

Lemma invoke_wire (m : method) (w : World) :
  Forall wire_ok (trace w) -> Forall wire_ok (trace (invoke env m w)).
Proof.
  intros H. destruct m as [| | | N | i]; cbn [invoke].
  - apply enable_wire. exact H.
  - apply disable_wire. exact H.
  - destruct (enabled (service w)) eqn:He.
    + rewrite (read_enabled env w He). apply read_each_wire. exact H.
    + unfold read, bind, this, throw. rewrite He. exact H.
  - apply readChannel_wire. exact H.
  - apply AnalogInput_read_wire. exact H.
Qed.

Lemma run_wire (ms : list method) :
  forall w, Forall wire_ok (trace w) -> Forall wire_ok (trace (run env ms w)).
Proof.
  induction ms as [| m rest IH]; intros w H; [exact H |].
  rewrite run_cons. apply IH. apply invoke_wire. exact H.
Qed.

End Wire.

(** X15: whatever sequence of methods is called on a new service, and with
    whatever arguments (readChannel included), the driver only ever opens
    bus number 1, only ever writes two bytes to register 0x01 of device
    0x48, those bytes being [0xC3 + 16 * N; 0x83] for a channel N in 0..3,
    only ever reads two bytes from register 0x00 of device 0x48, and only
    ever waits 2 ms. *)
Theorem X15_only_fixed_device_and_registers :
  forall (env : Collaborators) (ms : list method) (ev : event),
    In ev (trace (run env ms new_World)) -> wire_ok ev.
Proof.
  intros env ms ev Hin.
  pose proof (run_wire env ms new_World (Forall_nil _)) as H.
  rewrite Forall_forall in H. apply H. exact Hin.
Qed.

Lemma X15_only_fixed_device_and_registers_witness :
  wire_ok (WriteI2cBlockSync 7%nat 0x48 0x01 2 [0xF3; 0x83]).
Proof.
  apply (X15_only_fixed_device_and_registers (healthy 0 0)
           [CallEnable; CallReadChannel 7; CallReadChannel 3]).
  cbn. auto 10.
Defined.
